(** * kmyth SGX demo: TLS peer lifecycle and framed messages

    A shallow embedding of [sgx/demo/src/util/demo_tls_util.c].

    The C functions talk to three outside parties: the OpenSSL library, the
    socket layer ([read]/[write]) and the allocator ([calloc]/[free]).  None
    of them is part of the repository, so each function is embedded as a
    state-passing computation over an explicit record of what the outside
    did and will do:

    - the peer configuration functions run against an arbitrary library
      oracle [env], which answers every OpenSSL call from the history of
      events so far, and they append every call and every log line to a
      trace;
    - the message functions run in a [world] holding the incoming segments
      of the socket, the answers the kernel will give to the coming writes
      and allocations, the heap, and the same kind of trace.

    Pointers are machine addresses in [Z], [NULL] being 0. *)

From Stdlib Require Import ZArith List String Bool Lia.
From Stdlib.Strings Require Import Byte.
From stdpp Require Import base option list gmap fin_sets infinite.

Local Open Scope string_scope.
Local Open Scope list_scope.
Local Open Scope Z_scope.

(** ** Function bodies with early [return]

    A C function body is a computation over a state [S] that either is
    still running and has produced an [A] ([inr]), or has executed
    [return r] ([inl]); once returned, the rest of the body is skipped. *)

Definition Fn (S R A : Type) : Type := S -> (R + A) * S.

Definition fn_ret {S R A} (a : A) : Fn S R A := fun s => (inr a, s).

Definition fn_bind {S R A B} (k : A -> Fn S R B) (m : Fn S R A)
  : Fn S R B :=
  fun s =>
    match m s with
    | (inl r, s') => (inl r, s')
    | (inr a, s') => k a s'
    end.

#[global] Instance Fn_ret S R : MRet (Fn S R) := @fn_ret S R.
#[global] Instance Fn_bind S R : MBind (Fn S R) := @fn_bind S R.

(** [return r;] *)
Definition Return {S R A} (r : R) : Fn S R A := fun s => (inl r, s).

(** [if (c) { body }] with nothing to do otherwise. *)
Definition when {S R} (c : bool) (body : Fn S R unit) : Fn S R unit :=
  if c then body else fn_ret tt.

(** Calling a function from inside a body. *)
Definition invoke {S R A} (f : S -> A * S) : Fn S R A :=
  fun s => let (a, s') := f s in (inr a, s').

(** A call of the function: falling off the end of the body yields the
    value the body ended with. *)
Definition run {S R} (body : Fn S R R) (s : S) : R * S :=
  match body s with
  | (inl r, s') => (r, s')
  | (inr r, s') => (r, s')
  end.

(** ** C basics *)

Definition NULL : Z := 0.
Definition EXIT_SUCCESS : Z := 0.
Definition EXIT_FAILURE : Z := 1.

(** The two syslog severities [kmyth_log] is called with. *)
Inductive log_level : Type := LOG_ERR | LOG_DEBUG.

(** ** Part I: peer lifecycle and connection configuration *)

Module Tls.

(** Modelled from the spec: the declaration of [TLSPeer] in
    [demo_tls_util.h], which is not among the sources.  The peer holds its
    role, the endpoint, the three optional paths, the context handle and the
    transport handle, here under the names by which the functions of this
    file read and write them. *)
Record TLSPeer : Type := mkTLSPeer {
  isClient : bool;
  host : Z;
  port : Z;
  ca_cert_path : Z;
  local_key_path : Z;
  local_cert_path : Z;
  ctx : Z;
  bio : Z
}.

Definition set_isClient (b : bool) (p : TLSPeer) : TLSPeer :=
  mkTLSPeer b (host p) (port p) (ca_cert_path p) (local_key_path p)
    (local_cert_path p) (ctx p) (bio p).

Definition set_ctx (c : Z) (p : TLSPeer) : TLSPeer :=
  mkTLSPeer (isClient p) (host p) (port p) (ca_cert_path p)
    (local_key_path p) (local_cert_path p) c (bio p).

Definition set_bio (b : Z) (p : TLSPeer) : TLSPeer :=
  mkTLSPeer (isClient p) (host p) (port p) (ca_cert_path p)
    (local_key_path p) (local_cert_path p) (ctx p) b.

(** OpenSSL constants the functions pass along. *)
Definition TLS1_2_VERSION : Z := 0x0303.
Definition SSL_VERIFY_PEER : Z := 1.
Definition SSL_FILETYPE_PEM : Z := 1.
Definition SSL_MODE_AUTO_RETRY : Z := 4.
Definition X509_V_OK : Z := 0.

(** Every call that leaves the file, with its arguments. *)
Inductive call : Type :=
| SSL_load_error_strings
| SSL_library_init
| TLS_client_method
| TLS_server_method
| SSL_CTX_new (method : Z)
| SSL_CTX_set_min_proto_version (c version : Z)
| SSL_CTX_set_verify (c mode callback : Z)
| SSL_CTX_set_verify_depth (c depth : Z)
| SSL_CTX_load_verify_locations (c cafile capath : Z)
| SSL_CTX_set_default_verify_paths (c : Z)
| SSL_CTX_use_PrivateKey_file (c file type : Z)
| SSL_CTX_use_certificate_file (c file type : Z)
| BIO_new_ssl_connect (c : Z)
| BIO_set_conn_port (b port : Z)
| BIO_set_conn_hostname (b host : Z)
| BIO_get_ssl (b : Z)
| SSL_set_tlsext_host_name (ssl host : Z)
| SSL_set1_host (ssl host : Z)
| BIO_new_ssl (c client : Z)
| SSL_set_mode (ssl mode : Z)
| BIO_new_accept (port : Z)
| BIO_set_accept_bios (abio sbio : Z)
| BIO_do_accept (b : Z)
| BIO_do_connect (b : Z)
| SSL_get_verify_result (ssl : Z)
| X509_verify_cert_error_string (code : Z)
| BIO_free_all (b : Z)
| SSL_CTX_free (c : Z)
| free (p : Z).

(** What an observer of the process sees, oldest first. *)
Inductive event : Type :=
| Call (c : call) (result : Z)
| Log (level : log_level) (format : string) (args : list Z)
| OpensslError (origin : string).

(** The library oracle: the value a call returns, given everything that
    happened before.  [BIO_get_ssl] answers with the pointer it stores in
    its out-parameter.  The result of a [void] function is ignored. *)
Definition env : Type := list event -> call -> Z.


(** Bodies of functions returning [R], over the trace. *)
Abbreviation Body R := (Fn (list event) R).

Definition extern {R} (E : env) (c : call) : Body R Z :=
  fun tr => let r := E tr c in (inr r, tr ++ [Call c r]).

(** Modelled from the spec: [kmyth_log] and [log_openssl_error], the
    logging helpers defined elsewhere in the repository.  Logging changes
    nothing but the log, so each call is one more event of the trace. *)
Definition kmyth_log {R} (level : log_level) (format : string)
  (args : list Z) : Body R unit :=
  fun tr => (inr tt, tr ++ [Log level format args]).

Definition log_openssl_error {R} (origin : string) : Body R unit :=
  fun tr => (inr tt, tr ++ [OpensslError origin]).

(** Modelled from the spec: [secure_memset], defined elsewhere in the
    repository.  [secure_memset(tlsconn, 0, sizeof(TLSPeer))] zero-initializes
    all fields, which reads [false] for the flag and [NULL] for the
    pointers. *)
Definition zeroed_peer : TLSPeer := mkTLSPeer false 0 0 0 0 0 0 0.

Definition demo_tls_init (clientMode : bool) : TLSPeer :=
  set_isClient clientMode zeroed_peer.

Definition demo_tls_cleanup (E : env) (tlsconn : TLSPeer)
  : list event -> TLSPeer * list event :=
  run (
    when (negb (bio tlsconn =? NULL))
      (extern E (BIO_free_all (bio tlsconn));; mret tt);;
    when (negb (ctx tlsconn =? NULL))
      (extern E (SSL_CTX_free (ctx tlsconn));; mret tt);;
    when (negb (host tlsconn =? NULL))
      (extern E (free (host tlsconn));; mret tt);;
    when (negb (port tlsconn =? NULL))
      (extern E (free (port tlsconn));; mret tt);;
    when (negb (ca_cert_path tlsconn =? NULL))
      (extern E (free (ca_cert_path tlsconn));; mret tt);;
    when (negb (local_key_path tlsconn =? NULL))
      (extern E (free (local_key_path tlsconn));; mret tt);;
    when (negb (local_cert_path tlsconn =? NULL))
      (extern E (free (local_cert_path tlsconn));; mret tt);;
    mret (demo_tls_init false)).

(** Conversion of a [long] to [int]: the low 32 bits, read as a signed
    number. *)
Definition int_of_long (z : Z) : Z := (z + 2 ^ 31) mod 2 ^ 32 - 2 ^ 31.

(** [SSL_get_verify_result] returns a [long], which the function stores in
    [int verify_result]; the test and the lookup of the error string use
    the stored value. *)
Definition tls_get_verify_error (E : env) (tlsconn : TLSPeer)
  : list event -> unit * list event :=
  run (
    ssl ← extern E (BIO_get_ssl (bio tlsconn));
    when (ssl =? NULL)
      (kmyth_log LOG_ERR "failed to get SSL structure from BIO" [];;
       log_openssl_error "BIO_get_ssl()";;
       Return tt);;
    result ← extern E (SSL_get_verify_result ssl);
    let verify_result := int_of_long result in
    when (negb (verify_result =? X509_V_OK))
      (s ← extern E (X509_verify_cert_error_string verify_result);
       kmyth_log LOG_ERR "SSL_get_verify_result: %s" [s])).

(** The functions below return the [int] of the C function together with
    the struct as the call leaves it behind the pointer. *)
Definition demo_tls_config_ctx (E : env) (tlsconn : TLSPeer)
  : list event -> (Z * TLSPeer) * list event :=
  run (
    extern E SSL_load_error_strings;;
    extern E SSL_library_init;;
    method ←
      (if isClient tlsconn then
         method ← extern E TLS_client_method;
         when (NULL =? method)
           (kmyth_log LOG_ERR "error initiating TLS client method" [];;
            log_openssl_error "TLS_client_method()";;
            Return (-1, tlsconn));;
         kmyth_log LOG_DEBUG "using TLS client method" [];;
         mret method
       else
         method ← extern E TLS_server_method;
         when (NULL =? method)
           (kmyth_log LOG_ERR "error initiating TLS server method" [];;
            log_openssl_error "TLS_server_method()";;
            Return (-1, tlsconn));;
         kmyth_log LOG_DEBUG "using TLS server method" [];;
         mret method);
    c ← extern E (SSL_CTX_new method);
    let tlsconn := set_ctx c tlsconn in
    when (ctx tlsconn =? NULL)
      (kmyth_log LOG_ERR "error creating new TLS context" [];;
       log_openssl_error "SSL_CTX_new()";;
       Return (-1, tlsconn));;
    r ← extern E (SSL_CTX_set_min_proto_version (ctx tlsconn) TLS1_2_VERSION);
    when (negb (1 =? r))
      (kmyth_log LOG_ERR "failed to disable deprecated TLS versions" [];;
       log_openssl_error "SSL_CTX_set_min_proto_version()";;
       Return (-1, tlsconn));;
    extern E (SSL_CTX_set_verify (ctx tlsconn) SSL_VERIFY_PEER NULL);;
    extern E (SSL_CTX_set_verify_depth (ctx tlsconn) 5);;
    (if negb (ca_cert_path tlsconn =? NULL) then
       r ← extern E (SSL_CTX_load_verify_locations (ctx tlsconn)
                       (ca_cert_path tlsconn) NULL);
       when (negb (1 =? r))
         (kmyth_log LOG_ERR "failed to enable custom CA certificate (%s)"
            [ca_cert_path tlsconn];;
          log_openssl_error "SSL_CTX_load_verify_locations()";;
          Return (-1, tlsconn));;
       kmyth_log LOG_DEBUG "using custom CA certificate (%s)"
         [ca_cert_path tlsconn]
     else
       r ← extern E (SSL_CTX_set_default_verify_paths (ctx tlsconn));
       when (negb (1 =? r))
         (kmyth_log LOG_ERR "failed to enable default CA verify paths" [];;
          log_openssl_error "SSL_CTX_set_default_verify_paths()";;
          Return (-1, tlsconn));;
       kmyth_log LOG_DEBUG "using default CA verify paths" []);;
    when (negb (local_key_path tlsconn =? NULL))
      (r ← extern E (SSL_CTX_use_PrivateKey_file (ctx tlsconn)
                       (local_key_path tlsconn) SSL_FILETYPE_PEM);
       when (negb (1 =? r))
         (kmyth_log LOG_ERR "failed to set local private key (%s)"
            [local_key_path tlsconn];;
          log_openssl_error "SSL_CTX_use_PrivateKey_file()";;
          Return (-1, tlsconn));;
       kmyth_log LOG_DEBUG "set local private key (%s)"
         [local_key_path tlsconn]);;
    when (negb (local_cert_path tlsconn =? NULL))
      (r ← extern E (SSL_CTX_use_certificate_file (ctx tlsconn)
                       (local_cert_path tlsconn) SSL_FILETYPE_PEM);
       when (negb (1 =? r))
         (kmyth_log LOG_ERR "failed to load local certificate (%s)"
            [local_cert_path tlsconn];;
          log_openssl_error "SSL_CTX_use_certificate_file()";;
          Return (-1, tlsconn));;
       kmyth_log LOG_DEBUG "set local certificate (%s)"
         [local_cert_path tlsconn]);;
    mret (0, tlsconn)).

Definition demo_tls_config_client_connect (E : env) (tls_clnt : TLSPeer)
  : list event -> (Z * TLSPeer) * list event :=
  run (
    when (negb (isClient tls_clnt))
      (kmyth_log LOG_ERR
         "client config inappropriate for server connection" [];;
       Return (-1, tls_clnt));;
    b ← extern E (BIO_new_ssl_connect (ctx tls_clnt));
    let tls_clnt := set_bio b tls_clnt in
    when (bio tls_clnt =? NULL)
      (log_openssl_error "BIO_new_ssl_connect()";;
       Return (-1, tls_clnt));;
    r ← extern E (BIO_set_conn_port (bio tls_clnt) (port tls_clnt));
    when (negb (1 =? r))
      (log_openssl_error "BIO_set_conn_port()";;
       Return (-1, tls_clnt));;
    r ← extern E (BIO_set_conn_hostname (bio tls_clnt) (host tls_clnt));
    when (negb (1 =? r))
      (log_openssl_error "BIO_set_conn_hostname()";;
       Return (-1, tls_clnt));;
    ssl ← extern E (BIO_get_ssl (bio tls_clnt));
    when (ssl =? NULL)
      (log_openssl_error "BIO_get_ssl()";;
       Return (-1, tls_clnt));;
    r ← extern E (SSL_set_tlsext_host_name ssl (host tls_clnt));
    when (negb (1 =? r))
      (log_openssl_error "SSL_set_tlsext_host_name()";;
       Return (-1, tls_clnt));;
    r ← extern E (SSL_set1_host ssl (host tls_clnt));
    when (negb (1 =? r))
      (log_openssl_error "SSL_set1_host()";;
       Return (-1, tls_clnt));;
    mret (0, tls_clnt)).

Definition demo_tls_config_server_accept (E : env) (tls_svr : TLSPeer)
  : list event -> (Z * TLSPeer) * list event :=
  run (
    when (isClient tls_svr)
      (kmyth_log LOG_ERR
         "server config inappropriate for client connection" [];;
       Return (-1, tls_svr));;
    sbio ← extern E (BIO_new_ssl (ctx tls_svr) 0);
    ssl ← extern E (BIO_get_ssl sbio);
    when (ssl =? NULL)
      (kmyth_log LOG_ERR "error getting pointer to SSL structure" [];;
       log_openssl_error "BIO_get_ssl()";;
       Return (-1, tls_svr));;
    extern E (SSL_set_mode ssl SSL_MODE_AUTO_RETRY);;
    abio ← extern E (BIO_new_accept (port tls_svr));
    when (abio =? NULL)
      (kmyth_log LOG_ERR "failed to create new accept BIO" [];;
       log_openssl_error "BIO_new_accept()";;
       Return (-1, tls_svr));;
    extern E (BIO_set_accept_bios abio sbio);;
    r ← extern E (BIO_do_accept abio);
    when (r <=? 0)
      (kmyth_log LOG_ERR "error setting up accept BIO" [];;
       log_openssl_error "BIO_do_accept()";;
       Return (-1, tls_svr));;
    let tls_svr := set_bio abio tls_svr in
    mret (0, tls_svr)).

Definition demo_tls_client_connect (E : env) (tls_clnt : TLSPeer)
  : list event -> Z * list event :=
  run (
    r ← extern E (BIO_do_connect (bio tls_clnt));
    when (negb (1 =? r))
      (log_openssl_error "BIO_do_connect()";;
       invoke (tls_get_verify_error E tls_clnt);;
       Return (-1));;
    mret 0).

Definition demo_tls_server_accept (E : env) (tls_svr : TLSPeer)
  : list event -> Z * list event :=
  run (
    r ← extern E (BIO_do_accept (bio tls_svr));
    when (negb (1 =? r))
      (kmyth_log LOG_ERR "error accepting client connection" [];;
       log_openssl_error "BIO_do_accept()";;
       invoke (tls_get_verify_error E tls_svr);;
       Return (-1));;
    mret 0).

(** *** Reading a trace *)

(** The calls of a trace, oldest first. *)
Definition calls (tr : list event) : list call :=
  omap (fun e => match e with Call c _ => Some c | _ => None end) tr.



Definition is_identity_load (c : call) : bool :=
  match c with
  | SSL_CTX_use_PrivateKey_file _ _ _
  | SSL_CTX_use_certificate_file _ _ _ => true
  | _ => false
  end.



(** Two libraries to run examples against: one whose every call returns 1
    (a valid pointer, or success), and one that creates the connect handle
    at address 4096 and then lets every other call return 0. *)
Definition obliging : env := fun _ _ => 1.

Definition grudging : env :=
  fun _ c => match c with BIO_new_ssl_connect _ => 4096 | _ => 0 end.

(** The calls that give a resource back. *)
Definition is_release (c : call) : bool :=
  match c with
  | BIO_free_all _ | SSL_CTX_free _ | free _ => true
  | _ => false
  end.

(** The calls that only look something up. *)
Definition is_query (c : call) : bool :=
  match c with
  | BIO_get_ssl _ | SSL_get_verify_result _
  | X509_verify_cert_error_string _ => true
  | _ => false
  end.

(** The events that write to the log. *)
Definition is_report (e : event) : bool :=
  match e with
  | Call _ _ => false
  | Log _ _ _ | OpensslError _ => true
  end.

(** The pointers among [ps] that are not [NULL]. *)
Definition set_pointers (ps : list Z) : list Z :=
  List.filter (fun p => negb (p =? NULL)) ps.

End Tls.

(** ** Part II: framed messages over a socket *)

Module Frame.

(** *** Bytes and 16-bit words *)

(** The value of a [uint8_t]. *)
Definition byte_val (b : byte) : Z := Z.of_N (Byte.to_N b).

(** Conversion to [uint8_t] keeps the low eight bits. *)
Definition byte_of_Z (z : Z) : byte :=
  match Byte.of_N (Z.to_N (z mod 256)) with
  | Some b => b
  | None => x00
  end.

(** Conversion to [uint16_t]. *)
Definition uint16 (z : Z) : Z := z mod 65536.

(** What is fixed when the program is built and is not in this file: the
    ceiling [KMYTH_TLS_MAX_MSG_SIZE] of [demo_tls_util.h], and the byte order
    of the machine, on which [htons] and the layout of [hdr_buf] depend. *)
Record build : Type := mkBuild {
  KMYTH_TLS_MAX_MSG_SIZE : Z;
  little_endian : bool
}.

(** [htons] swaps the two bytes on a little-endian host and is the identity
    on a big-endian one. *)
Definition htons (B : build) (x : Z) : Z :=
  if little_endian B
  then Z.lor (Z.shiftl (Z.land x 255) 8) (Z.shiftr x 8)
  else x.

(** The two bytes a [uint16_t] object occupies, by increasing address. *)
Definition uint16_object (B : build) (x : Z) : list byte :=
  if little_endian B
  then [byte_of_Z (Z.land x 255); byte_of_Z (Z.shiftr x 8)]
  else [byte_of_Z (Z.shiftr x 8); byte_of_Z (Z.land x 255)].

(** Modelled from the spec: the declarations of [TLSMessageHeader] and
    [TLSMessage] in [demo_tls_util.h], which is not among the sources.  The
    length is an unsigned 16-bit value and the only member of the header, so
    that [sizeof(msg->hdr)] is 2 (the two-byte header of the wire format);
    the body is a pointer to heap bytes. *)
Record TLSMessageHeader : Type := mkHeader { msg_size : Z }.

Record TLSMessage : Type := mkMessage {
  hdr : TLSMessageHeader;
  body : Z
}.

Definition sizeof_hdr : Z := 2.

Definition set_msg_size (n : Z) (msg : TLSMessage) : TLSMessage :=
  mkMessage (mkHeader n) (body msg).

Definition set_body (p : Z) (msg : TLSMessage) : TLSMessage :=
  mkMessage (hdr msg) p.

(** [buf[i]] as promoted to [int]. *)
Definition at_index (buf : list byte) (i : nat) : Z :=
  byte_val (nth i buf x00).

(** *** The process and its surroundings *)

(** What the socket holds for the reader, in order of arrival.  A [read]
    never crosses the end of a segment; [SegErr] makes one [read] fail; the
    empty list is a peer that has closed. *)
Inductive segment : Type :=
| Seg (bytes : list byte)
| SegErr.

(** How the kernel will treat one [write]. *)
Inductive answer : Type :=
| Whole
| Partial (k : nat)
| Refused.

Inductive event : Type :=
| Read (fd count result : Z)
| Write (fd count result : Z)
| Calloc (nmemb size result : Z)
| Log (level : log_level) (format : string).

Record world : Type := mkWorld {
  rx : list segment;
  wr_plan : list answer;
  alloc_plan : list bool;
  heap : gmap Z (list byte);
  tx : list byte;
  trace : list event
}.

Definition emit (e : event) (w : world) : world :=
  mkWorld (rx w) (wr_plan w) (alloc_plan w) (heap w) (tx w) (trace w ++ [e]).

Definition set_rx (q : list segment) (w : world) : world :=
  mkWorld q (wr_plan w) (alloc_plan w) (heap w) (tx w) (trace w).

Definition set_wr_plan (a : list answer) (w : world) : world :=
  mkWorld (rx w) a (alloc_plan w) (heap w) (tx w) (trace w).

Definition set_alloc_plan (a : list bool) (w : world) : world :=
  mkWorld (rx w) (wr_plan w) a (heap w) (tx w) (trace w).

Definition set_heap (h : gmap Z (list byte)) (w : world) : world :=
  mkWorld (rx w) (wr_plan w) (alloc_plan w) h (tx w) (trace w).

Definition set_tx (t : list byte) (w : world) : world :=
  mkWorld (rx w) (wr_plan w) (alloc_plan w) (heap w) t (trace w).

(** The bytes the next [read] of [count] bytes stores, given what the
    socket holds. *)
Definition delivered (count : Z) (q : list segment) : list byte :=
  match q with
  | Seg bytes :: _ => take (Z.to_nat count) bytes
  | _ => []
  end.

(** What the socket holds once [count] bytes of the segment [bytes] at its
    head have been read. *)
Definition after_read (count : Z) (bytes : list byte) (q : list segment)
  : list segment :=
  match drop (Z.to_nat count) bytes with
  | [] => q
  | rest => Seg rest :: q
  end.

Abbreviation Body R := (Fn world R).

Definition kmyth_log {R} (level : log_level) (format : string)
  : Body R unit :=
  fun w => (inr tt, emit (Log level format) w).

(** [read(fd, buf, count)] for a buffer the caller keeps: the result and the
    bytes stored at the start of the buffer. *)
Definition read {R} (fd count : Z) : Body R (Z * list byte) :=
  fun w =>
    match rx w with
    | [] => (inr (0, []), emit (Read fd count 0) w)
    | SegErr :: q => (inr (-1, []), emit (Read fd count (-1)) (set_rx q w))
    | Seg bytes :: q =>
        let data := take (Z.to_nat count) bytes in
        let r := Z.of_nat (length data) in
        (inr (r, data),
         emit (Read fd count r) (set_rx (after_read count bytes q) w))
    end.

(** Overwriting the start of the block at [p]. *)
Definition store (p : Z) (data : list byte) (w : world) : world :=
  set_heap (alter (fun old => data ++ drop (length data) old) p (heap w)) w.

(** [read(fd, p, count)] into the heap block at [p]. *)
Definition read_into {R} (fd p count : Z) : Body R Z :=
  '(r, data) ← read fd count;
  invoke (fun w => (tt, store p data w));;
  mret r.

(** The [count] bytes at [p], when the block there is that long. *)
Definition load (p count : Z) (w : world) : option (list byte) :=
  buf ← heap w !! p;
  if decide (Z.to_nat count <= length buf)%nat
  then Some (take (Z.to_nat count) buf)
  else None.

(** [write(fd, buf, count)], given the bytes of the buffer.  A buffer that
    is not readable for [count] bytes makes the call fail (EFAULT). *)
Definition write {R} (fd : Z) (buf : option (list byte)) (count : Z)
  : Body R Z :=
  fun w =>
    match buf, wr_plan w with
    | None, plan =>
        (inr (-1), emit (Write fd count (-1)) (set_wr_plan (tail plan) w))
    | Some _, Refused :: plan =>
        (inr (-1), emit (Write fd count (-1)) (set_wr_plan plan w))
    | Some bytes, Partial k :: plan =>
        let taken := take k bytes in
        let r := Z.of_nat (length taken) in
        (inr r,
         emit (Write fd count r)
           (set_tx (tx w ++ taken) (set_wr_plan plan w)))
    | Some bytes, plan =>
        let r := Z.of_nat (length bytes) in
        (inr r,
         emit (Write fd count r)
           (set_tx (tx w ++ bytes) (set_wr_plan (tail plan) w)))
    end.

(** [calloc(nmemb, size)]: [NULL], or a block of zero bytes at an address
    that is neither [NULL] nor in use. *)
Definition calloc {R} (nmemb size : Z) : Body R Z :=
  fun w =>
    match alloc_plan w with
    | false :: plan =>
        (inr NULL, emit (Calloc nmemb size NULL) (set_alloc_plan plan w))
    | plan =>
        let p := fresh ({[NULL]} ∪ dom (heap w)) in
        (inr p,
         emit (Calloc nmemb size p)
           (set_heap (<[p := replicate (Z.to_nat (nmemb * size)) x00]> (heap w))
              (set_alloc_plan (tail plan) w)))
    end.

(** *** The wire format, in the words of the protocol *)

(** The unsigned big-endian 16-bit value of two bytes. *)
Definition be16 (hi lo : byte) : Z := byte_val hi * 256 + byte_val lo.

(** The two bytes of an unsigned big-endian 16-bit value. *)
Definition be16_bytes (n : Z) : list byte :=
  [byte_of_Z (n / 256); byte_of_Z (n mod 256)].

(** All the bytes the socket holds, whatever the segments. *)
Definition stream_bytes (q : list segment) : list byte :=
  concat (List.map (fun s => match s with Seg bytes => bytes | SegErr => [] end)
            q).

(** A build with the ceiling at 16384 on a little-endian machine, and a
    process with nothing around it, to run examples in. *)
Definition sample_build : build := mkBuild 16384 true.

Definition idle : world := mkWorld [] [] [] ∅ [] [].

(** *** The two functions *)

Definition demo_tls_recv_msg (B : build) (socket_fd : Z) (msg : TLSMessage)
  : world -> (Z * TLSMessage) * world :=
  run (
    '(bytes_read, hdr_buf) ← read socket_fd sizeof_hdr;
    (if bytes_read =? 0 then
       kmyth_log LOG_ERR "TLS connection is closed";;
       Return (EXIT_FAILURE, msg)
     else
       when (negb (bytes_read =? sizeof_hdr))
         (kmyth_log LOG_ERR
            "read invalid number of TLS message header bytes";;
          Return (EXIT_FAILURE, msg)));;
    let msg := set_msg_size (uint16 (Z.shiftl (at_index hdr_buf 0) 8)) msg in
    let msg :=
      set_msg_size (uint16 (msg_size (hdr msg) + at_index hdr_buf 1)) msg in
    when (msg_size (hdr msg) >? KMYTH_TLS_MAX_MSG_SIZE B)
      (kmyth_log LOG_ERR "length in TLS message header exceeds limit";;
       Return (EXIT_FAILURE, msg));;
    p ← calloc (msg_size (hdr msg)) 1;
    let msg := set_body p msg in
    when (body msg =? NULL)
      (kmyth_log LOG_ERR "failed to allocate received message buffer";;
       Return (EXIT_FAILURE, msg));;
    bytes_read ← read_into socket_fd (body msg) (msg_size (hdr msg));
    (if bytes_read =? 0 then
       kmyth_log LOG_ERR "TLS connection is closed";;
       Return (EXIT_FAILURE, msg)
     else
       when (negb (bytes_read =? msg_size (hdr msg)))
         (kmyth_log LOG_ERR "read incorrect number of TLS message bytes";;
          Return (EXIT_FAILURE, msg)));;
    mret (EXIT_SUCCESS, msg)).

Definition demo_tls_send_msg (B : build) (socket_fd : Z) (msg : TLSMessage)
  : world -> Z * world :=
  run (
    when ((msg_size (hdr msg) >? KMYTH_TLS_MAX_MSG_SIZE B)
          || (msg_size (hdr msg) =? 0))
      (kmyth_log LOG_ERR "invalid TLS message size";;
       Return EXIT_FAILURE);;
    let hdr_buf := htons B (msg_size (hdr msg)) in
    bytes_sent ← write socket_fd (Some (uint16_object B hdr_buf)) sizeof_hdr;
    when (negb (bytes_sent =? sizeof_hdr))
      (kmyth_log LOG_ERR "sending TLS message header failed";;
       Return EXIT_FAILURE);;
    buf ← invoke (fun w => (load (body msg) (msg_size (hdr msg)) w, w));
    bytes_sent ← write socket_fd buf (msg_size (hdr msg));
    when (negb (bytes_sent =? msg_size (hdr msg)))
      (kmyth_log LOG_ERR "sending TLS message payload failed";;
       Return EXIT_FAILURE);;
    mret EXIT_SUCCESS).

End Frame.

(** * Properties *)

(** ** Running a body step by step *)

Lemma bind_eq {S R A B} (m : Fn S R A) (k : A -> Fn S R B) (s : S) :
  (m ≫= k) s
  = match m s with
    | (inl r, s') => (inl r, s')
    | (inr a, s') => k a s'
    end.
Proof. reflexivity. Qed.

(** ** Peer lifecycle and connection configuration *)

Section PeerFacts.

Import Tls.

#[local] Arguments Z.eqb : simpl never.
#[local] Arguments Z.leb : simpl never.

Ltac open_body :=
  unfold run, mbind, mret, Fn_bind, Fn_ret, fn_bind, fn_ret, when, Return,
    invoke, extern, kmyth_log, log_openssl_error.

Lemma calls_app (tr1 tr2 : list event) :
  calls (tr1 ++ tr2) = calls tr1 ++ calls tr2.
Proof. unfold calls. apply omap_app. Qed.

(** One guarded release of [demo_tls_cleanup]. *)
Lemma release_step {R} (E : env) (f : Z -> call) (p : Z) (tr : list event) :
  exists evs,
    when (R := R) (negb (p =? NULL)) (extern E (f p);; mret tt) tr
      = (inr tt, tr ++ evs)
    /\ calls evs = map f (set_pointers [p]).
Proof.
  open_body. unfold set_pointers. simpl.
  destruct (p =? NULL); simpl.
  - exists []. by rewrite app_nil_r.
  - by eexists [_].
Qed.

(** C2 (as the code has it): teardown hands the transport handle to
    [BIO_free_all] if it is set, then the context handle to [SSL_CTX_free] if
    it is set, then each of host, port, CA certificate path, local key path
    and local certificate path to [free] if it is set, makes no other call,
    and leaves every field of the peer zero.  The flag [isClient] is
    therefore [false]: the blank peer has the Server role. *)
Theorem cleanup_releases_and_blanks (E : env) (p : TLSPeer)
    (tr : list event) :
  exists evs,
    demo_tls_cleanup E p tr
      = (mkTLSPeer false NULL NULL NULL NULL NULL NULL NULL, tr ++ evs)
    /\ calls evs
       = map BIO_free_all (set_pointers [bio p])
         ++ map SSL_CTX_free (set_pointers [ctx p])
         ++ map free (set_pointers [host p; port p; ca_cert_path p;
                                    local_key_path p; local_cert_path p]).
Proof.
  unfold demo_tls_cleanup, run.
  destruct (release_step (R := TLSPeer) E BIO_free_all (bio p) tr)
    as (e1 & E1 & H1).
  rewrite bind_eq, E1.
  destruct (release_step (R := TLSPeer) E SSL_CTX_free (ctx p) (tr ++ e1))
    as (e2 & E2 & H2).
  rewrite bind_eq, E2.
  destruct (release_step (R := TLSPeer) E free (host p) ((tr ++ e1) ++ e2))
    as (e3 & E3 & H3).
  rewrite bind_eq, E3.
  destruct (release_step (R := TLSPeer) E free (port p)
              (((tr ++ e1) ++ e2) ++ e3)) as (e4 & E4 & H4).
  rewrite bind_eq, E4.
  destruct (release_step (R := TLSPeer) E free (ca_cert_path p)
              ((((tr ++ e1) ++ e2) ++ e3) ++ e4)) as (e5 & E5 & H5).
  rewrite bind_eq, E5.
  destruct (release_step (R := TLSPeer) E free (local_key_path p)
              (((((tr ++ e1) ++ e2) ++ e3) ++ e4) ++ e5)) as (e6 & E6 & H6).
  rewrite bind_eq, E6.
  destruct (release_step (R := TLSPeer) E free (local_cert_path p)
              ((((((tr ++ e1) ++ e2) ++ e3) ++ e4) ++ e5) ++ e6))
    as (e7 & E7 & H7).
  rewrite bind_eq, E7.
  exists (e1 ++ e2 ++ e3 ++ e4 ++ e5 ++ e6 ++ e7). split.
  - unfold mret, Fn_ret, fn_ret, demo_tls_init, set_isClient, zeroed_peer,
      NULL. simpl. by rewrite <- !app_assoc.
  - rewrite !calls_app, H1, H2, H3, H4, H5, H6, H7.
    unfold set_pointers. simpl.
    repeat (match goal with |- context [negb (?x =? NULL)] =>
              destruct (negb (x =? NULL)) end; simpl); reflexivity.
Qed.

(** The peer left behind by teardown is not the blank Client-role peer. *)
Lemma cleanup_role_is_not_client :
  fst (demo_tls_cleanup obliging (mkTLSPeer true 11 12 13 14 15 16 17) [])
  <> demo_tls_init true.
Proof. vm_compute. discriminate. Qed.

(** C7: on a Server-role peer, [demo_tls_config_client_connect] returns -1
    having done nothing but log the role mismatch: no library call is made
    and the peer is untouched.  The same holds for
    [demo_tls_config_server_accept] on a Client-role peer. *)
Theorem role_mismatch_before_any_call (E : env) (p : TLSPeer)
    (tr : list event) :
  (isClient p = false ->
   demo_tls_config_client_connect E p tr
   = ((-1, p),
      tr ++ [Log LOG_ERR
               "client config inappropriate for server connection" []]))
  /\ (isClient p = true ->
      demo_tls_config_server_accept E p tr
      = ((-1, p),
         tr ++ [Log LOG_ERR
                  "server config inappropriate for client connection" []])).
Proof.
  split; intros Hrole.
  - unfold demo_tls_config_client_connect. open_body. by rewrite Hrole.
  - unfold demo_tls_config_server_accept. open_body. by rewrite Hrole.
Qed.

Lemma role_mismatch_before_any_call_witness :
  demo_tls_config_client_connect obliging (demo_tls_init false) []
  = ((-1, demo_tls_init false),
     [Log LOG_ERR "client config inappropriate for server connection" []])
  /\ demo_tls_config_server_accept obliging (demo_tls_init true) []
     = ((-1, demo_tls_init true),
        [Log LOG_ERR "server config inappropriate for client connection" []]).
Proof.
  split.
  - apply (role_mismatch_before_any_call obliging (demo_tls_init false) []).
    reflexivity.
  - apply (role_mismatch_before_any_call obliging (demo_tls_init true) []).
    reflexivity.
Defined.

(** A failed client configuration keeps the handle it has just created, of
    which not even the port is set. *)
Lemma client_config_failure_keeps_handle :
  let p := mkTLSPeer true 11 12 13 14 15 16 NULL in
  let res := demo_tls_config_client_connect grudging p [] in
  fst (fst res) = -1
  /\ bio (snd (fst res)) = 4096
  /\ bio (snd (fst res)) <> bio p
  /\ snd res = [Call (BIO_new_ssl_connect 16) 4096;
                Call (BIO_set_conn_port 4096 12) 0;
                OpensslError "BIO_set_conn_port()"].
Proof. vm_compute. repeat split; discriminate. Qed.

(** Name the results of the library calls, innermost first, so that the
    history inside later calls stays small. *)
Ltac name_results E :=
  repeat match goal with
         | |- context [E ?t ?c] =>
             lazymatch t with context [E _ _] => fail | _ => idtac end;
             lazymatch c with context [E _ _] => fail | _ => idtac end;
             let x := fresh "ret" in
             generalize (E t c); intros x
         end.

(** Follow every path through a body: name what can be named, decide the
    next test, and go on. *)
Ltac explore E :=
  repeat (name_results E;
          match goal with
          | |- context [if ?c then _ else _] => destruct c eqn:?; simpl
          end);
  name_results E.

Ltac tests_to_props :=
  repeat match goal with
         | H : negb _ = true |- _ => apply negb_true_iff in H
         | H : negb _ = false |- _ => apply negb_false_iff in H
         | H : (_ =? _) = true |- _ => apply Z.eqb_eq in H
         | H : (_ =? _) = false |- _ => apply Z.eqb_neq in H
         | H : (_ <=? _) = true |- _ => apply Z.leb_le in H
         | H : (_ <=? _) = false |- _ => apply Z.leb_gt in H
         | H : (_ >? _) = true |- _ => apply Z.gtb_gt in H
         | H : (_ >? _) = false |- _ =>
             rewrite Z.gtb_ltb in H; apply Z.ltb_ge in H
         end.

(** C3 (as the code has it).  [demo_tls_config_server_accept] keeps its
    handles in locals: when it fails the peer is unchanged, and when it
    succeeds the transport field holds the accept handle, which is set up.
    [demo_tls_config_client_connect] stores the new handle in the peer
    first: when it fails at the role check the peer is unchanged, when it
    fails later the transport field holds what [BIO_new_ssl_connect]
    returned, and when it succeeds the transport field holds that handle,
    not [NULL], with port, host name, SNI name and verification host set. *)
Theorem config_outcome_transport (E : env) (p : TLSPeer) (tr : list event) :
  (forall r p' tr',
      demo_tls_config_server_accept E p tr = ((r, p'), tr') ->
      (r <> 0 -> p' = p)
      /\ (r = 0 ->
          exists sbio ssl abio m a d,
            tr' = tr ++ [Call (BIO_new_ssl (ctx p) 0) sbio;
                         Call (BIO_get_ssl sbio) ssl;
                         Call (SSL_set_mode ssl SSL_MODE_AUTO_RETRY) m;
                         Call (BIO_new_accept (port p)) abio;
                         Call (BIO_set_accept_bios abio sbio) a;
                         Call (BIO_do_accept abio) d]
            /\ p' = set_bio abio p
            /\ ssl <> NULL /\ abio <> NULL /\ 0 < d))
  /\ (forall r p' tr',
         demo_tls_config_client_connect E p tr = ((r, p'), tr') ->
         (r <> 0 ->
          (isClient p = false /\ p' = p)
          \/ (isClient p = true
              /\ p' = set_bio (E tr (BIO_new_ssl_connect (ctx p))) p))
         /\ (r = 0 ->
             exists b ssl,
               tr' = tr ++ [Call (BIO_new_ssl_connect (ctx p)) b;
                            Call (BIO_set_conn_port b (port p)) 1;
                            Call (BIO_set_conn_hostname b (host p)) 1;
                            Call (BIO_get_ssl b) ssl;
                            Call (SSL_set_tlsext_host_name ssl (host p)) 1;
                            Call (SSL_set1_host ssl (host p)) 1]
               /\ p' = set_bio b p
               /\ b <> NULL /\ ssl <> NULL)).
Proof.
  split; intros r p' tr'.
  - unfold demo_tls_config_server_accept. open_body. simpl.
    explore E; intros H; inversion H; subst; clear H;
      (split; [intros Hr | intros Hr]); try done.
    tests_to_props. do 6 eexists.
    split; [by rewrite <- !app_assoc |].
    split; [reflexivity |]. unfold NULL in *. lia.
  - unfold demo_tls_config_client_connect. open_body.
    destruct (isClient p) eqn:Hrole; simpl;
      explore E; intros H; inversion H; subst; clear H;
      (split; [intros Hr | intros Hr]); try done;
      try (left; split; done); try (right; split; done).
    tests_to_props. subst. do 2 eexists.
    split; [by rewrite <- !app_assoc |].
    split; [reflexivity |]. unfold NULL in *. simpl in *. lia.
Qed.

Lemma config_outcome_transport_witness :
  snd (fst (demo_tls_config_server_accept grudging (demo_tls_init false) []))
  = demo_tls_init false
  /\ snd (fst (demo_tls_config_client_connect grudging
                 (demo_tls_init true) []))
     = set_bio 4096 (demo_tls_init true).
Proof.
  destruct (config_outcome_transport grudging (demo_tls_init false) [])
    as [Hsvr _].
  destruct (config_outcome_transport grudging (demo_tls_init true) [])
    as [_ Hclnt].
  split.
  - apply (Hsvr (-1) _ _ eq_refl). discriminate.
  - destruct (Hclnt (-1) _ _ eq_refl) as [Hfail _].
    destruct Hfail as [[Hrole _] | [_ Hbio]];
      [discriminate | discriminate Hrole | exact Hbio].
Defined.









(** *** Further properties of the peer functions *)

(** Everything [demo_tls_cleanup] does. *)
Lemma cleanup_outcome (E : env) (p : TLSPeer) (tr : list event) :
  exists evs,
    demo_tls_cleanup E p tr = (demo_tls_init false, tr ++ evs)
    /\ calls evs
       = map BIO_free_all (set_pointers [bio p])
         ++ map SSL_CTX_free (set_pointers [ctx p])
         ++ map free (set_pointers [host p; port p; ca_cert_path p;
                                    local_key_path p; local_cert_path p]).
Proof.
  unfold demo_tls_cleanup, run.
  destruct (release_step (R := TLSPeer) E BIO_free_all (bio p) tr)
    as (e1 & E1 & H1).
  rewrite bind_eq, E1.
  destruct (release_step (R := TLSPeer) E SSL_CTX_free (ctx p) (tr ++ e1))
    as (e2 & E2 & H2).
  rewrite bind_eq, E2.
  set (strings := [host p; port p; ca_cert_path p; local_key_path p;
                   local_cert_path p]).
  destruct (release_step (R := TLSPeer) E free (host p) ((tr ++ e1) ++ e2))
    as (e3 & E3 & H3).
  rewrite bind_eq, E3.
  destruct (release_step (R := TLSPeer) E free (port p)
              (((tr ++ e1) ++ e2) ++ e3)) as (e4 & E4 & H4).
  rewrite bind_eq, E4.
  destruct (release_step (R := TLSPeer) E free (ca_cert_path p)
              ((((tr ++ e1) ++ e2) ++ e3) ++ e4)) as (e5 & E5 & H5).
  rewrite bind_eq, E5.
  destruct (release_step (R := TLSPeer) E free (local_key_path p)
              (((((tr ++ e1) ++ e2) ++ e3) ++ e4) ++ e5)) as (e6 & E6 & H6).
  rewrite bind_eq, E6.
  destruct (release_step (R := TLSPeer) E free (local_cert_path p)
              ((((((tr ++ e1) ++ e2) ++ e3) ++ e4) ++ e5) ++ e6))
    as (e7 & E7 & H7).
  rewrite bind_eq, E7.
  exists (e1 ++ e2 ++ e3 ++ (e4 ++ e5 ++ e6 ++ e7)). split.
  - unfold mret, Fn_ret, fn_ret. by rewrite <- !app_assoc.
  - rewrite !calls_app, H1, H2, H3, H4, H5, H6, H7.
    do 2 f_equal. subst strings. unfold set_pointers. simpl.
    repeat (match goal with |- context [negb (?x =? NULL)] =>
              destruct (negb (x =? NULL)) end; simpl); reflexivity.
Qed.

(** What teardown hands to [BIO_free_all] and to [SSL_CTX_free]. *)
Lemma cleanup_frees_handles (E : env) (p : TLSPeer) (tr : list event) :
  exists evs,
    snd (demo_tls_cleanup E p tr) = tr ++ evs
    /\ (forall b, In (BIO_free_all b) (calls evs) <-> b = bio p /\ b <> NULL)
    /\ (forall c, In (SSL_CTX_free c) (calls evs) <-> c = ctx p /\ c <> NULL).
Proof.
  destruct (cleanup_outcome E p tr) as (evs & Hrun & Hcalls).
  exists evs. rewrite Hrun. split; [reflexivity |].
  rewrite Hcalls. unfold set_pointers. simpl.
  split; intros x; rewrite !in_app_iff, !in_map_iff.
  - split.
    + intros [(y & Hy & Hin) | [(y & Hy & _) | (y & Hy & _)]];
        try discriminate.
      destruct (bio p =? NULL) eqn:Hb; simpl in Hin; [done |].
      destruct Hin as [<- | []]. inversion Hy; subst.
      split; [done | by apply Z.eqb_neq].
    + intros [-> Hx]. left. exists (bio p). split; [done |].
      apply Z.eqb_neq in Hx. rewrite Hx. by left.
  - split.
    + intros [(y & Hy & _) | [(y & Hy & Hin) | (y & Hy & _)]];
        try discriminate.
      destruct (ctx p =? NULL) eqn:Hc; simpl in Hin; [done |].
      destruct Hin as [<- | []]. inversion Hy; subst.
      split; [done | by apply Z.eqb_neq].
    + intros [-> Hx]. right. left. exists (ctx p). split; [done |].
      apply Z.eqb_neq in Hx. rewrite Hx. by left.
Qed.

(** X1: a second teardown does nothing: running [demo_tls_cleanup] on the
    peer a first teardown left behind makes no call, so nothing is released
    twice.  The same holds for a peer fresh from [demo_tls_init], whatever
    its role. *)
Theorem cleanup_twice_releases_once (E : env) (p : TLSPeer)
    (tr tr2 : list event) :
  demo_tls_cleanup E (fst (demo_tls_cleanup E p tr)) tr2
  = (demo_tls_init false, tr2)
  /\ forall clientMode,
      demo_tls_cleanup E (demo_tls_init clientMode) tr
      = (demo_tls_init false, tr).
Proof.
  split.
  - destruct (cleanup_outcome E p tr) as (evs & -> & _). reflexivity.
  - intros clientMode. reflexivity.
Qed.

Ltac find_in_list :=
  simpl; repeat first [left; reflexivity | right].

Ltac all_of_list := simpl; repeat constructor.

(** X2: when [demo_tls_config_ctx] returns 0, the peer holds a context
    that is not [NULL] and nothing else in the peer has changed; that
    context is the value a call of [SSL_CTX_new] returned, made with the
    method obtained for the peer's role; on it the protocol floor was set to
    TLS 1.2 with success, peer verification was switched on with depth 5,
    and one of the two trust stores was loaded with success. *)
Theorem config_ctx_success_policy (E : env) (p : TLSPeer)
    (tr : list event) :
  forall r p' tr',
    demo_tls_config_ctx E p tr = ((r, p'), tr') ->
    r = 0 ->
    exists evs,
      tr' = tr ++ evs
      /\ ctx p' <> NULL
      /\ p' = set_ctx (ctx p') p
      /\ In (Call (SSL_CTX_set_min_proto_version (ctx p') TLS1_2_VERSION) 1)
           evs
      /\ In (SSL_CTX_set_verify (ctx p') SSL_VERIFY_PEER NULL) (calls evs)
      /\ In (SSL_CTX_set_verify_depth (ctx p') 5) (calls evs)
      /\ (In (Call (SSL_CTX_load_verify_locations (ctx p') (ca_cert_path p)
                      NULL) 1) evs
          \/ In (Call (SSL_CTX_set_default_verify_paths (ctx p')) 1) evs)
      /\ exists method,
          In (Call (SSL_CTX_new method) (ctx p')) evs
          /\ method <> NULL
          /\ In (Call (if isClient p then TLS_client_method
                       else TLS_server_method) method) evs.
Proof.
  intros r p' tr'. unfold demo_tls_config_ctx. open_body.
  destruct (isClient p); simpl;
    explore E; intros H; inversion H; subst; clear H; intros Hr;
    try discriminate Hr;
    tests_to_props; subst;
    (eexists; split; [by rewrite <- !app_assoc |]);
    (split; [assumption |]); (split; [reflexivity |]);
    (split; [find_in_list |]); (split; [find_in_list |]);
    (split; [find_in_list |]);
    (split; [first [left; find_in_list; fail | right; find_in_list] |]);
    eexists; (split; [find_in_list |]);
    (split; [unfold NULL in *; congruence | find_in_list]).
Qed.

Lemma config_ctx_success_policy_witness :
  ctx (snd (fst (demo_tls_config_ctx obliging (demo_tls_init false) [])))
  <> NULL.
Proof.
  destruct (config_ctx_success_policy obliging (demo_tls_init false) []
              _ _ _ eq_refl eq_refl) as (evs & _ & Hctx & _).
  exact Hctx.
Defined.

(** X3: whatever happens, [demo_tls_config_ctx] returns 0 or -1, starts
    with [SSL_load_error_strings] and [SSL_library_init], and changes no
    field of the peer but the context; every value [SSL_CTX_new] returns is
    stored there at once, [NULL] included, and stays there when a later
    step fails. *)
Theorem config_ctx_touches_context_only (E : env) (p : TLSPeer)
    (tr : list event) :
  exists evs a b rest,
    let r := fst (fst (demo_tls_config_ctx E p tr)) in
    let p' := snd (fst (demo_tls_config_ctx E p tr)) in
    snd (demo_tls_config_ctx E p tr) = tr ++ evs
    /\ evs = Call SSL_load_error_strings a :: Call SSL_library_init b :: rest
    /\ (r = 0 \/ r = -1)
    /\ p' = set_ctx (ctx p') p
    /\ Forall (fun e => match e with
                        | Call (SSL_CTX_new _) c => ctx p' = c
                        | _ => True
                        end) evs
    /\ (Forall (fun c => match c with SSL_CTX_new _ => False | _ => True end)
          (calls evs) ->
        p' = p).
Proof.
  unfold demo_tls_config_ctx. open_body. simpl.
  explore E; do 4 eexists;
    (split; [rewrite <- !app_assoc; simpl; reflexivity |]);
    (split; [reflexivity |]);
    (split; [auto |]);
    (split; [by destruct p |]);
    (split; [all_of_list |]);
    simpl; intros Hnone;
    repeat match goal with
           | H : Forall _ (_ :: _) |- _ => inversion H; clear H; subst
           end; done.
Qed.

Lemma config_ctx_touches_context_only_witness :
  snd (fst (demo_tls_config_ctx grudging (demo_tls_init true) []))
  = demo_tls_init true.
Proof.
  destruct (config_ctx_touches_context_only grudging (demo_tls_init true) [])
    as (evs & a & b & rest & Htr & _ & _ & _ & _ & Hsame).
  apply Hsame. simpl in Htr. rewrite <- Htr. vm_compute.
  repeat constructor.
Defined.

(** X4: the negotiation method follows the role.  A Client-role peer never
    asks for the server method and a Server-role peer never for the client
    method, and the context is created from the method obtained for the
    role, which is not [NULL]. *)
Theorem config_ctx_method_follows_role (E : env) (p : TLSPeer)
    (tr : list event) :
  exists evs,
    let own := if isClient p then TLS_client_method else TLS_server_method in
    let other := if isClient p then TLS_server_method else TLS_client_method in
    snd (demo_tls_config_ctx E p tr) = tr ++ evs
    /\ In own (calls evs)
    /\ ~ In other (calls evs)
    /\ Forall (fun e => match e with
                        | Call (SSL_CTX_new m) _ =>
                            m <> NULL /\ In (Call own m) evs
                        | _ => True
                        end) evs.
Proof.
  unfold demo_tls_config_ctx. open_body.
  destruct (isClient p); simpl;
    explore E; eexists;
    (split; [rewrite <- !app_assoc; simpl; reflexivity |]);
    tests_to_props; unfold NULL in *;
    (split; [find_in_list |]);
    (split; [simpl; intuition discriminate |]);
    simpl;
    repeat (apply Forall_cons; split;
            [first [exact I | split; [lia | find_in_list]] |]);
    by apply Forall_nil.
Qed.

Ltac forall_of_list tac :=
  simpl;
  repeat (apply Forall_cons; split; [first [exact I | tac] |]);
  by apply Forall_nil.

(** X5: when [demo_tls_config_ctx] returns 0, the private key file was
    loaded if and only if a key path is configured and the certificate file
    if and only if a certificate path is configured, each from the
    configured path in PEM format and with success. *)
Theorem config_ctx_success_identity (E : env) (p : TLSPeer)
    (tr : list event) :
  forall r p' tr',
    demo_tls_config_ctx E p tr = ((r, p'), tr') ->
    r = 0 ->
    exists evs,
      tr' = tr ++ evs
      /\ (Exists (fun c => is_identity_load c = true) (calls evs) ->
          local_key_path p <> NULL \/ local_cert_path p <> NULL)
      /\ (local_key_path p <> NULL ->
          In (Call (SSL_CTX_use_PrivateKey_file (ctx p') (local_key_path p)
                      SSL_FILETYPE_PEM) 1) evs)
      /\ (local_cert_path p <> NULL ->
          In (Call (SSL_CTX_use_certificate_file (ctx p') (local_cert_path p)
                      SSL_FILETYPE_PEM) 1) evs)
      /\ Forall (fun e => match e with
                          | Call (SSL_CTX_use_PrivateKey_file c f t) res =>
                              c = ctx p' /\ f = local_key_path p
                              /\ f <> NULL /\ t = SSL_FILETYPE_PEM /\ res = 1
                          | Call (SSL_CTX_use_certificate_file c f t) res =>
                              c = ctx p' /\ f = local_cert_path p
                              /\ f <> NULL /\ t = SSL_FILETYPE_PEM /\ res = 1
                          | _ => True
                          end) evs.
Proof.
  intros r p' tr'. unfold demo_tls_config_ctx. open_body. simpl.
  explore E; intros H; inversion H; subst; clear H; intros Hr;
    try discriminate Hr;
    tests_to_props; subst;
    (eexists; split; [by rewrite <- !app_assoc |]);
    (split; [simpl; intros Hex;
             repeat match goal with
                    | H : Exists _ (_ :: _) |- _ =>
                        inversion H; clear H; subst; try discriminate
                    | H : Exists _ [] |- _ => inversion H
                    end; auto |]);
    (split; [intros Hkey; first [done | find_in_list] |]);
    (split; [intros Hcert; first [done | find_in_list] |]);
    forall_of_list ltac:(by repeat split).
Qed.

Lemma config_ctx_success_identity_witness :
  let p := mkTLSPeer false 0 12 0 14 15 0 0 in
  In (Call (SSL_CTX_use_PrivateKey_file 1 14 SSL_FILETYPE_PEM) 1)
    (snd (demo_tls_config_ctx obliging p [])).
Proof.
  intros p.
  destruct (config_ctx_success_identity obliging p [] _ _ _ eq_refl eq_refl)
    as (evs & Htr & _ & Hkey & _).
  specialize (Hkey ltac:(discriminate)).
  vm_compute in Htr. subst evs. vm_compute in Hkey. vm_compute.
  exact Hkey.
Defined.

(** X6: a key or certificate load that does not return 1 is fatal:
    [demo_tls_config_ctx] returns -1 and the failing load is its last call.
    A failed key load therefore means the certificate is never tried.  The
    context created stays in the peer. *)
Theorem config_ctx_identity_failure (E : env) (p : TLSPeer)
    (tr : list event) :
  exists evs,
    let r := fst (fst (demo_tls_config_ctx E p tr)) in
    let p' := snd (fst (demo_tls_config_ctx E p tr)) in
    snd (demo_tls_config_ctx E p tr) = tr ++ evs
    /\ (Exists (fun e => match e with
                         | Call c res => is_identity_load c = true /\ res <> 1
                         | _ => False
                         end) evs ->
        r = -1
        /\ ctx p' <> NULL
        /\ exists pre c res lvl fmt args origin,
            evs = pre ++ [Call c res; Log lvl fmt args; OpensslError origin]
            /\ is_identity_load c = true /\ res <> 1 /\ lvl = LOG_ERR
            /\ match c with
               | SSL_CTX_use_PrivateKey_file _ _ _ =>
                   Forall (fun c' =>
                             match c' with
                             | SSL_CTX_use_certificate_file _ _ _ => False
                             | _ => True
                             end) (calls evs)
               | _ => True
               end).
Proof.
  unfold demo_tls_config_ctx. open_body. simpl.
  explore E; eexists;
    (split; [rewrite <- !app_assoc; simpl; reflexivity |]);
    tests_to_props; subst; simpl; intros Hex;
    repeat match goal with
           | H : Exists _ (_ :: _) |- _ => inversion H; clear H; subst
           | H : Exists _ [] |- _ => inversion H
           | H : False |- _ => destruct H
           | H : _ /\ _ |- _ => destruct H
           | H : is_identity_load _ = true |- _ =>
               simpl in H; try discriminate H
           end;
    try congruence;
    (split; [reflexivity |]); (split; [assumption |]);
    match goal with
    | |- exists pre c res lvl fmt args origin, ?l = _ /\ _ =>
        exists (take (length l - 3) l); do 6 eexists;
        (split; [reflexivity |]); simpl;
        (split; [reflexivity |]); (split; [congruence |]);
        (split; [reflexivity |]);
        first [exact I | forall_of_list ltac:(fail)]
    end.
Qed.

Lemma config_ctx_identity_failure_witness :
  let E : env := fun _ c =>
    match c with SSL_CTX_use_PrivateKey_file _ _ _ => 0 | _ => 1 end in
  let p := mkTLSPeer false 0 12 0 14 15 0 0 in
  fst (fst (demo_tls_config_ctx E p [])) = -1.
Proof.
  intros E p.
  destruct (config_ctx_identity_failure E p []) as (evs & Htr & Hfail).
  simpl in Htr. destruct Hfail as [Hr _]; [| exact Hr].
  rewrite <- Htr.
  do 10 apply Exists_cons_tl. apply Exists_cons_hd.
  split; [reflexivity | discriminate].
Defined.

(** The context field after [demo_tls_config_ctx] is what [SSL_CTX_new]
    returned, if it was called. *)
Lemma config_ctx_keeps_context (E : env) (p : TLSPeer) (tr : list event) :
  exists evs,
    snd (demo_tls_config_ctx E p tr) = tr ++ evs
    /\ Forall (fun e => match e with
                        | Call (SSL_CTX_new _) c =>
                            ctx (snd (fst (demo_tls_config_ctx E p tr))) = c
                        | _ => True
                        end) evs.
Proof.
  unfold demo_tls_config_ctx. open_body. simpl.
  explore E; eexists;
    (split; [rewrite <- !app_assoc; simpl; reflexivity |]);
    forall_of_list ltac:(reflexivity).
Qed.

(** X7: a context created by [demo_tls_config_ctx] is released by the next
    [demo_tls_cleanup], whether the configuration went on to succeed or
    failed at a later step: teardown after configuration calls
    [SSL_CTX_free] on every non-[NULL] value [SSL_CTX_new] returned. *)
Theorem cleanup_releases_configured_context (E : env) (p : TLSPeer)
    (tr : list event) :
  exists evs evs2,
    let res := demo_tls_config_ctx E p tr in
    snd res = tr ++ evs
    /\ snd (demo_tls_cleanup E (snd (fst res)) (snd res)) = snd res ++ evs2
    /\ Forall (fun e => match e with
                        | Call (SSL_CTX_new _) c =>
                            c <> NULL -> In (SSL_CTX_free c) (calls evs2)
                        | _ => True
                        end) evs.
Proof.
  destruct (config_ctx_keeps_context E p tr) as (evs & Htr & Hctx).
  destruct (cleanup_frees_handles E
              (snd (fst (demo_tls_config_ctx E p tr)))
              (snd (demo_tls_config_ctx E p tr)))
    as (evs2 & Htr2 & _ & Hfree).
  exists evs, evs2. split; [exact Htr |]. split; [exact Htr2 |].
  eapply Forall_impl; [exact Hctx |].
  intros [[] res | |]; simpl; try done.
  intros Hc Hres. apply Hfree. by split.
Qed.

Lemma cleanup_releases_configured_context_witness :
  let E : env := fun _ c =>
    match c with SSL_CTX_set_min_proto_version _ _ => 0 | _ => 7 end in
  let res := demo_tls_config_ctx E (demo_tls_init true) [] in
  fst (fst res) = -1
  /\ In (SSL_CTX_free 7)
       (calls (snd (demo_tls_cleanup E (snd (fst res)) (snd res)))).
Proof.
  intros E res. split; [reflexivity |].
  destruct (cleanup_releases_configured_context E (demo_tls_init true) [])
    as (evs & evs2 & Htr & Htr2 & Hall).
  fold res in Htr, Htr2. rewrite Htr2, calls_app. apply in_or_app. right.
  simpl in Htr. rewrite <- Htr in Hall.
  apply Forall_forall with (x := Call (SSL_CTX_new 7) 7) in Hall.
  - apply Hall. discriminate.
  - vm_compute. do 4 right. left.
Defined.

(** X8: on a Client-role peer, the handle [BIO_new_ssl_connect] returns is
    stored in the peer by [demo_tls_config_client_connect] whatever the
    outcome, so that the next [demo_tls_cleanup] hands it to
    [BIO_free_all]: a configuration that fails half way does not lose the
    handle. *)
Theorem cleanup_releases_client_transport (E : env) (p : TLSPeer)
    (tr : list event) :
  isClient p = true ->
  let b := E tr (BIO_new_ssl_connect (ctx p)) in
  let res := demo_tls_config_client_connect E p tr in
  snd (fst res) = set_bio b p
  /\ (b <> NULL ->
      exists evs2,
        snd (demo_tls_cleanup E (snd (fst res)) (snd res)) = snd res ++ evs2
        /\ In (BIO_free_all b) (calls evs2)).
Proof.
  intros Hrole b res.
  assert (snd (fst res) = set_bio b p) as Hpeer.
  { subst res b. unfold demo_tls_config_client_connect. open_body.
    rewrite Hrole. simpl. explore E; reflexivity. }
  split; [exact Hpeer |]. intros Hb.
  destruct (cleanup_frees_handles E (snd (fst res)) (snd res))
    as (evs2 & Htr2 & Hfree & _).
  exists evs2. split; [exact Htr2 |].
  apply Hfree. rewrite Hpeer. by split.
Qed.

Lemma cleanup_releases_client_transport_witness :
  let res := demo_tls_config_client_connect grudging (demo_tls_init true) [] in
  fst (fst res) = -1
  /\ exists evs2,
      snd (demo_tls_cleanup grudging (snd (fst res)) (snd res))
      = snd res ++ evs2
      /\ In (BIO_free_all 4096) (calls evs2).
Proof.
  intros res. split; [reflexivity |].
  apply (cleanup_releases_client_transport grudging (demo_tls_init true) []
           eq_refl).
  discriminate.
Defined.

(** X9: configuration never gives anything back.  None of
    [demo_tls_config_ctx], [demo_tls_config_client_connect] and
    [demo_tls_config_server_accept] calls [BIO_free_all], [SSL_CTX_free] or
    [free], on any path: a context or transport handle the peer held before
    the call is overwritten without being released, and the handles
    [demo_tls_config_server_accept] created before failing are not
    released either. *)
Theorem configuration_never_releases (E : env) (p : TLSPeer)
    (tr : list event) :
  exists e1 e2 e3,
    snd (demo_tls_config_ctx E p tr) = tr ++ e1
    /\ snd (demo_tls_config_client_connect E p tr) = tr ++ e2
    /\ snd (demo_tls_config_server_accept E p tr) = tr ++ e3
    /\ Forall (fun c => is_release c = false) (calls e1)
    /\ Forall (fun c => is_release c = false) (calls e2)
    /\ Forall (fun c => is_release c = false) (calls e3).
Proof.
  assert (exists e1, snd (demo_tls_config_ctx E p tr) = tr ++ e1
                     /\ Forall (fun c => is_release c = false) (calls e1))
    as (e1 & H1 & F1).
  { unfold demo_tls_config_ctx. open_body. simpl.
    explore E; eexists;
      (split; [rewrite <- ?app_assoc; simpl; reflexivity |]);
      forall_of_list ltac:(reflexivity). }
  assert (exists e2, snd (demo_tls_config_client_connect E p tr) = tr ++ e2
                     /\ Forall (fun c => is_release c = false) (calls e2))
    as (e2 & H2 & F2).
  { unfold demo_tls_config_client_connect. open_body. simpl.
    explore E; eexists;
      (split; [rewrite <- ?app_assoc; simpl; reflexivity |]);
      forall_of_list ltac:(reflexivity). }
  assert (exists e3, snd (demo_tls_config_server_accept E p tr) = tr ++ e3
                     /\ Forall (fun c => is_release c = false) (calls e3))
    as (e3 & H3 & F3).
  { unfold demo_tls_config_server_accept. open_body. simpl.
    explore E; eexists;
      (split; [rewrite <- ?app_assoc; simpl; reflexivity |]);
      forall_of_list ltac:(reflexivity). }
  by exists e1, e2, e3.
Qed.

(** What [tls_get_verify_error] does, case by case. *)
Lemma verify_error_cases (E : env) (p : TLSPeer) (tr : list event) :
  let ssl := E tr (BIO_get_ssl (bio p)) in
  let tr1 := tr ++ [Call (BIO_get_ssl (bio p)) ssl] in
  let result := E tr1 (SSL_get_verify_result ssl) in
  let v := int_of_long result in
  let tr2 := tr1 ++ [Call (SSL_get_verify_result ssl) result] in
  let s := E tr2 (X509_verify_cert_error_string v) in
  snd (tls_get_verify_error E p tr)
  = tr ++ Call (BIO_get_ssl (bio p)) ssl ::
      (if ssl =? NULL then
         [Log LOG_ERR "failed to get SSL structure from BIO" [];
          OpensslError "BIO_get_ssl()"]
       else
         Call (SSL_get_verify_result ssl) result ::
           (if v =? X509_V_OK then []
            else [Call (X509_verify_cert_error_string v) s;
                  Log LOG_ERR "SSL_get_verify_result: %s" [s]])).
Proof.
  intros ssl tr1 result v tr2 s. subst ssl tr1 result v tr2 s.
  unfold tls_get_verify_error. open_body. simpl.
  destruct (E tr (BIO_get_ssl (bio p)) =? NULL); simpl;
    [by rewrite <- !app_assoc |].
  destruct (int_of_long (E _ (SSL_get_verify_result _)) =? X509_V_OK); simpl;
    by rewrite <- !app_assoc.
Qed.

(** X10: [tls_get_verify_error] only looks things up and reports.  It
    writes to the log exactly when the transport has no session or the
    verification result, as the [int] it is stored in, is not [X509_V_OK],
    always at error level; it never asks for a verification result without
    a session; and every call it makes is one of the three queries. *)
Theorem verify_error_reports_only_problems (E : env) (p : TLSPeer)
    (tr : list event) :
  let ssl := E tr (BIO_get_ssl (bio p)) in
  let v := int_of_long (E (tr ++ [Call (BIO_get_ssl (bio p)) ssl])
                          (SSL_get_verify_result ssl)) in
  exists evs,
    snd (tls_get_verify_error E p tr) = tr ++ evs
    /\ (Exists (fun e => is_report e = true) evs
        <-> ssl = NULL \/ v <> X509_V_OK)
    /\ (ssl = NULL ->
        Forall (fun c => match c with
                         | SSL_get_verify_result _ => False
                         | _ => True
                         end) (calls evs))
    /\ Forall (fun c => is_query c = true) (calls evs)
    /\ Forall (fun e => match e with
                        | Log level _ _ => level = LOG_ERR
                        | _ => True
                        end) evs.
Proof.
  intros ssl v. eexists. split; [apply verify_error_cases |].
  fold ssl. fold v.
  destruct (ssl =? NULL) eqn:Hssl; [| destruct (v =? X509_V_OK) eqn:Hv];
    tests_to_props.
  - split; [split; [auto | intros _; right; by left] |].
    split; [intros _; forall_of_list ltac:(fail) |].
    split; forall_of_list ltac:(reflexivity).
  - split; [split |].
    + intros Hex.
      repeat match goal with
             | H : Exists _ (_ :: _) |- _ => inversion H; clear H; subst
             | H : Exists _ [] |- _ => inversion H
             end; discriminate.
    + intros [? | ?]; done.
    + split; [done |]. split; forall_of_list ltac:(reflexivity).
  - split; [split; [auto | intros _; do 3 right; by left] |].
    split; [done |]. split; forall_of_list ltac:(reflexivity).
Qed.

(** X11: [demo_tls_client_connect] succeeds only when [BIO_do_connect]
    returns exactly 1, and then it has made that one call and nothing
    else.  Any other result gives -1, and the failure report is followed
    by everything [tls_get_verify_error] does, so that the cause of a
    failed handshake is always looked up. *)
Theorem client_connect_outcome (E : env) (p : TLSPeer) (tr : list event) :
  let d := E tr (BIO_do_connect (bio p)) in
  (d = 1 ->
   demo_tls_client_connect E p tr
   = (0, tr ++ [Call (BIO_do_connect (bio p)) 1]))
  /\ (d <> 1 ->
      let failed := tr ++ [Call (BIO_do_connect (bio p)) d;
                           OpensslError "BIO_do_connect()"] in
      demo_tls_client_connect E p tr
      = (-1, snd (tls_get_verify_error E p failed))
      /\ exists ssl rest,
          snd (tls_get_verify_error E p failed)
          = failed ++ Call (BIO_get_ssl (bio p)) ssl :: rest).
Proof.
  intros d. subst d. split.
  - intros Hd. unfold demo_tls_client_connect. open_body.
    cbv beta zeta. rewrite Hd. reflexivity.
  - intros Hd failed. split.
    + unfold demo_tls_client_connect. open_body. cbv beta zeta.
      apply Z.eqb_neq in Hd. rewrite Z.eqb_sym, Hd. simpl.
      subst failed. rewrite <- app_assoc. simpl.
      by destruct (tls_get_verify_error E p _) as [[] tr'].
    + rewrite verify_error_cases. by do 2 eexists.
Qed.

Lemma client_connect_outcome_witness :
  demo_tls_client_connect obliging (demo_tls_init true) []
  = (0, [Call (BIO_do_connect NULL) 1])
  /\ fst (demo_tls_client_connect grudging (demo_tls_init true) []) = -1.
Proof.
  split.
  - apply (client_connect_outcome obliging (demo_tls_init true) []).
    reflexivity.
  - destruct (client_connect_outcome grudging (demo_tls_init true) [])
      as [_ Hfail].
    destruct Hfail as [Hrun _]; [discriminate |].
    rewrite Hrun. reflexivity.
Defined.

(** X12: [demo_tls_server_accept] succeeds only when [BIO_do_accept]
    returns exactly 1, and then it has made that one call and nothing
    else.  Any other result, a positive one included, gives -1 with the
    line "error accepting client connection", followed by everything
    [tls_get_verify_error] does. *)
Theorem server_accept_outcome (E : env) (p : TLSPeer) (tr : list event) :
  let d := E tr (BIO_do_accept (bio p)) in
  (d = 1 ->
   demo_tls_server_accept E p tr
   = (0, tr ++ [Call (BIO_do_accept (bio p)) 1]))
  /\ (d <> 1 ->
      let failed := tr ++ [Call (BIO_do_accept (bio p)) d;
                           Log LOG_ERR "error accepting client connection" [];
                           OpensslError "BIO_do_accept()"] in
      demo_tls_server_accept E p tr
      = (-1, snd (tls_get_verify_error E p failed))
      /\ exists ssl rest,
          snd (tls_get_verify_error E p failed)
          = failed ++ Call (BIO_get_ssl (bio p)) ssl :: rest).
Proof.
  intros d. subst d. split.
  - intros Hd. unfold demo_tls_server_accept. open_body.
    cbv beta zeta. rewrite Hd. reflexivity.
  - intros Hd failed. split.
    + unfold demo_tls_server_accept. open_body. cbv beta zeta.
      apply Z.eqb_neq in Hd. rewrite Z.eqb_sym, Hd. simpl.
      subst failed. rewrite <- !app_assoc. simpl.
      by destruct (tls_get_verify_error E p _) as [[] tr'].
    + rewrite verify_error_cases. by do 2 eexists.
Qed.

Lemma server_accept_outcome_witness :
  demo_tls_server_accept obliging (demo_tls_init false) []
  = (0, [Call (BIO_do_accept NULL) 1])
  /\ fst (demo_tls_server_accept (fun _ _ => 2) (demo_tls_init false) [])
     = -1.
Proof.
  split.
  - apply (server_accept_outcome obliging (demo_tls_init false) []).
    reflexivity.
  - destruct (server_accept_outcome (fun _ _ => 2) (demo_tls_init false) [])
      as [_ Hfail].
    destruct Hfail as [Hrun _]; [discriminate |].
    rewrite Hrun. reflexivity.
Defined.

Lemma verify_error_reports_only_problems_witness :
  Exists (fun e => is_report e = true)
    (snd (tls_get_verify_error obliging (demo_tls_init true) [])).
Proof.
  destruct (verify_error_reports_only_problems obliging
              (demo_tls_init true) []) as (evs & Htr & Hreport & _).
  change (snd (tls_get_verify_error obliging (demo_tls_init true) []) = evs)
    in Htr.
  rewrite Htr. apply Hreport. right. discriminate.
Defined.

End PeerFacts.

(** ** Framed messages *)

Section FrameFacts.

Import Frame.

#[local] Arguments Z.eqb : simpl never.
#[local] Arguments Z.gtb : simpl never.
#[local] Arguments Z.of_nat : simpl never.
#[local] Arguments Z.to_nat : simpl never.

(** *** Bytes *)

Lemma byte_val_range (b : byte) : 0 <= byte_val b < 256.
Proof.
  unfold byte_val. pose proof (Byte.to_N_bounded b). lia.
Qed.

Lemma byte_val_of_Z (z : Z) : byte_val (byte_of_Z z) = z mod 256.
Proof.
  unfold byte_val, byte_of_Z.
  pose proof (Z.mod_pos_bound z 256 eq_refl) as Hz.
  destruct (Byte.of_N (Z.to_N (z mod 256))) as [b |] eqn:Hb.
  - apply Byte.to_of_N in Hb. rewrite Hb. lia.
  - apply Byte.of_N_None_iff in Hb. lia.
Qed.

Lemma be16_range (hi lo : byte) : 0 <= be16 hi lo < 65536.
Proof.
  unfold be16. pose proof (byte_val_range hi). pose proof (byte_val_range lo).
  lia.
Qed.

(** The two assignments to [msg->hdr.msg_size] compute the big-endian
    value of the header and never wrap. *)
Lemma header_decoding (h0 h1 : byte) (rest : list byte) :
  uint16 (uint16 (Z.shiftl (at_index (h0 :: h1 :: rest) 0) 8)
          + at_index (h0 :: h1 :: rest) 1)
  = be16 h0 h1.
Proof.
  unfold at_index, uint16, be16. simpl nth.
  pose proof (byte_val_range h0). pose proof (byte_val_range h1).
  rewrite Z.shiftl_mul_pow2 by lia. change (2 ^ 8) with 256.
  rewrite (Z.mod_small (byte_val h0 * 256)) by lia.
  apply Z.mod_small. lia.
Qed.

Lemma be16_of_bytes (n : Z) :
  0 <= n < 65536 ->
  be16 (byte_of_Z (n / 256)) (byte_of_Z (n mod 256)) = n.
Proof.
  intros Hn. unfold be16. rewrite !byte_val_of_Z.
  rewrite (Z.mod_small (n / 256)).
  - rewrite Z.mod_mod by lia. pose proof (Z.div_mod n 256). lia.
  - split; [apply Z.div_pos; lia | apply Z.div_lt_upper_bound; lia].
Qed.

Lemma lor_high_low (a b : Z) :
  0 <= b < 256 -> Z.lor (Z.shiftl a 8) b = Z.shiftl a 8 + b.
Proof.
  intros Hb.
  assert (Z.land (Z.shiftl a 8) b = 0) as Hdisjoint.
  { apply Z.bits_inj'. intros i Hi.
    rewrite Z.land_spec, Z.bits_0.
    destruct (Z_lt_le_dec i 8) as [Hlow | Hhigh].
    - by rewrite Z.shiftl_spec_low.
    - rewrite <- (Z.mod_small b (2 ^ 8)) by (change (2 ^ 8) with 256; lia).
      rewrite Z.mod_pow2_bits_high by lia. apply andb_false_r. }
  rewrite <- Z.lxor_lor by exact Hdisjoint.
  symmetry. by apply Z.add_nocarry_lxor.
Qed.

(** Whatever the byte order of the machine, the object [hdr_buf] that
    [demo_tls_send_msg] hands to [write] holds the length high byte
    first. *)
Lemma header_encoding (B : build) (n : Z) :
  0 <= n < 65536 -> uint16_object B (htons B n) = be16_bytes n.
Proof.
  intros Hn. unfold uint16_object, htons, be16_bytes.
  change 255 with (Z.ones 8).
  destruct (little_endian B).
  - rewrite (Z.land_ones n) by lia. rewrite (Z.shiftr_div_pow2 n) by lia.
    change (2 ^ 8) with 256.
    assert (0 <= n / 256 < 256) as Hhi
      by (split; [apply Z.div_pos; lia | apply Z.div_lt_upper_bound; lia]).
    pose proof (Z.mod_pos_bound n 256 eq_refl) as Hlo.
    rewrite lor_high_low by exact Hhi.
    rewrite Z.shiftl_mul_pow2 by lia. change (2 ^ 8) with 256.
    rewrite Z.land_ones by lia. rewrite Z.shiftr_div_pow2 by lia.
    change (2 ^ 8) with 256.
    replace ((n mod 256 * 256 + n / 256) mod 256) with (n / 256)
      by (rewrite Z.add_comm, Z.mod_add by lia; symmetry;
          by apply Z.mod_small).
    replace ((n mod 256 * 256 + n / 256) / 256) with (n mod 256)
      by (rewrite Z.add_comm, Z.div_add by lia;
          rewrite (Z.div_small (n / 256)) by exact Hhi; lia).
    reflexivity.
  - rewrite Z.land_ones by lia. rewrite Z.shiftr_div_pow2 by lia.
    reflexivity.
Qed.

(** *** The system calls *)

Lemma read_closed {R} (fd count : Z) (w : world) :
  rx w = [] ->
  read (R := R) fd count w = (inr (0, []), emit (Read fd count 0) w).
Proof. intros Hrx. unfold read. by rewrite Hrx. Qed.

Lemma read_error {R} (fd count : Z) (w : world) (q : list segment) :
  rx w = SegErr :: q ->
  read (R := R) fd count w
  = (inr (-1, []), emit (Read fd count (-1)) (set_rx q w)).
Proof. intros Hrx. unfold read. by rewrite Hrx. Qed.

Lemma read_segment {R} (fd count : Z) (w : world) (bytes : list byte)
    (q : list segment) :
  rx w = Seg bytes :: q ->
  read (R := R) fd count w
  = (inr (Z.of_nat (length (take (Z.to_nat count) bytes)),
          take (Z.to_nat count) bytes),
     emit (Read fd count (Z.of_nat (length (take (Z.to_nat count) bytes))))
       (set_rx (after_read count bytes q) w)).
Proof. intros Hrx. unfold read. by rewrite Hrx. Qed.

(** What every [read] does, whatever the socket holds: it returns -1 or the
    number of bytes it stored, which is what [delivered] says and never more
    than asked for, and it touches nothing but the socket and the trace. *)
Lemma read_spec {R} (fd count : Z) (w : world) :
  exists r w1,
    read (R := R) fd count w = (inr (r, delivered count (rx w)), w1)
    /\ (r = -1 /\ delivered count (rx w) = []
        \/ r = Z.of_nat (length (delivered count (rx w))))
    /\ (length (delivered count (rx w)) <= Z.to_nat count)%nat
    /\ heap w1 = heap w
    /\ alloc_plan w1 = alloc_plan w
    /\ wr_plan w1 = wr_plan w
    /\ tx w1 = tx w
    /\ trace w1 = trace w ++ [Read fd count r].
Proof.
  unfold read, delivered.
  destruct (rx w) as [| [bytes |] q]; do 2 eexists;
    (split; [reflexivity |]); simpl;
    rewrite ?length_take; repeat split; try lia; auto.
Qed.

Lemma calloc_spec {R} (nmemb size : Z) (w : world) :
  exists p w1,
    calloc (R := R) nmemb size w = (inr p, w1)
    /\ (p = NULL /\ heap w1 = heap w /\ head (alloc_plan w) = Some false
        \/ p <> NULL /\ heap w !! p = None
           /\ heap w1
              = <[p := replicate (Z.to_nat (nmemb * size)) x00]> (heap w))
    /\ rx w1 = rx w
    /\ trace w1 = trace w ++ [Calloc nmemb size p].
Proof.
  unfold calloc.
  assert (fresh ({[NULL]} ∪ dom (heap w)) <> NULL
          /\ heap w !! fresh ({[NULL]} ∪ dom (heap w)) = None) as [Hp Hfree].
  { pose proof (is_fresh ({[NULL]} ∪ dom (heap w))) as Hf.
    split; [set_solver |]. apply not_elem_of_dom. set_solver. }
  destruct (alloc_plan w) as [| [|] plan]; do 2 eexists;
    (split; [reflexivity |]); simpl; repeat split; auto.
Qed.

(** *** The claims about [demo_tls_send_msg] and [demo_tls_recv_msg] *)

Ltac open_frame :=
  unfold run, mbind, mret, Fn_bind, Fn_ret, fn_bind, fn_ret, when, Return,
    invoke, kmyth_log.

(** C5: a message whose length field is 0 or above the ceiling makes
    [demo_tls_send_msg] return [EXIT_FAILURE] (the "invalid TLS message
    size" failure) having only logged: there is no [write], and no byte
    reaches the transport. *)
Theorem send_rejects_invalid_size (B : build) (fd : Z) (msg : TLSMessage)
    (w : world) :
  msg_size (hdr msg) = 0
  \/ msg_size (hdr msg) > KMYTH_TLS_MAX_MSG_SIZE B ->
  demo_tls_send_msg B fd msg w
  = (EXIT_FAILURE, emit (Log LOG_ERR "invalid TLS message size") w)
  /\ tx (snd (demo_tls_send_msg B fd msg w)) = tx w
  /\ trace (snd (demo_tls_send_msg B fd msg w))
     = trace w ++ [Log LOG_ERR "invalid TLS message size"].
Proof.
  intros Hsize.
  assert ((msg_size (hdr msg) >? KMYTH_TLS_MAX_MSG_SIZE B)
          || (msg_size (hdr msg) =? 0) = true) as Htest.
  { apply orb_true_iff. destruct Hsize as [H0 | Hbig].
    - right. by apply Z.eqb_eq.
    - left. by apply Z.gtb_gt. }
  unfold demo_tls_send_msg. open_frame. rewrite Htest. simpl. done.
Qed.

Lemma send_rejects_invalid_size_witness :
  demo_tls_send_msg sample_build 3 (mkMessage (mkHeader 16385) 0) idle
  = (EXIT_FAILURE, emit (Log LOG_ERR "invalid TLS message size") idle).
Proof.
  apply (send_rejects_invalid_size sample_build 3
           (mkMessage (mkHeader 16385) 0) idle).
  right. simpl. lia.
Defined.

(** C6: [demo_tls_recv_msg] starts with one [read] of two bytes.  When that
    [read] returns 0 the function returns [EXIT_FAILURE] with the line
    "TLS connection is closed"; when it returns another value below 2 the
    function returns [EXIT_FAILURE] with the line "read invalid number of
    TLS message header bytes".  In both cases nothing else is done: the
    message is untouched and the trace holds that one [read] and the line.
    The return value is the same, the two lines differ. *)
Theorem recv_header_read_failures (B : build) (fd : Z) (msg : TLSMessage)
    (w : world) :
  forall r data w1,
    read (R := Z * TLSMessage) fd sizeof_hdr w = (inr (r, data), w1) ->
    trace w1 = trace w ++ [Read fd 2 r]
    /\ (r = 0 ->
        demo_tls_recv_msg B fd msg w
        = ((EXIT_FAILURE, msg),
           emit (Log LOG_ERR "TLS connection is closed") w1))
    /\ (r <> 0 -> r < 2 ->
        demo_tls_recv_msg B fd msg w
        = ((EXIT_FAILURE, msg),
           emit (Log LOG_ERR
                   "read invalid number of TLS message header bytes") w1))
    /\ Log LOG_ERR "TLS connection is closed"
       <> Log LOG_ERR "read invalid number of TLS message header bytes".
Proof.
  intros r data w1 Hread.
  destruct (read_spec (R := Z * TLSMessage) fd sizeof_hdr w)
    as (r' & w1' & Hread' & _ & _ & _ & _ & _ & _ & Htrace).
  rewrite Hread in Hread'. inversion Hread'; subst r' w1'. clear Hread'.
  split; [exact Htrace |].
  unfold demo_tls_recv_msg, run. rewrite bind_eq, Hread.
  repeat split.
  - intros ->. reflexivity.
  - intros Hnz Hlt. open_frame.
    destruct (r =? 0) eqn:H0; [apply Z.eqb_eq in H0; lia |].
    destruct (r =? sizeof_hdr) eqn:H2;
      [apply Z.eqb_eq in H2; unfold sizeof_hdr in H2; lia |].
    reflexivity.
  - discriminate.
Qed.

Lemma recv_header_read_failures_witness :
  demo_tls_recv_msg sample_build 4 (mkMessage (mkHeader 0) 0) idle
  = ((EXIT_FAILURE, mkMessage (mkHeader 0) 0),
     emit (Log LOG_ERR "TLS connection is closed")
       (emit (Read 4 2 0) idle))
  /\ demo_tls_recv_msg sample_build 4 (mkMessage (mkHeader 0) 0)
       (set_rx [Seg [x2a]] idle)
     = ((EXIT_FAILURE, mkMessage (mkHeader 0) 0),
        emit (Log LOG_ERR "read invalid number of TLS message header bytes")
          (emit (Read 4 2 1) idle)).
Proof.
  split.
  - apply (recv_header_read_failures sample_build 4
             (mkMessage (mkHeader 0) 0) idle 0 [] (emit (Read 4 2 0) idle));
      reflexivity.
  - apply (recv_header_read_failures sample_build 4
             (mkMessage (mkHeader 0) 0) (set_rx [Seg [x2a]] idle)
             1 [x2a] (emit (Read 4 2 1) idle));
      [reflexivity | discriminate | reflexivity].
Defined.

(** C4: when the two header bytes decode to a length above the ceiling,
    [demo_tls_recv_msg] returns [EXIT_FAILURE] with the line "length in TLS
    message header exceeds limit" straight after the header [read]: there
    is no [calloc] and no second [read], and the heap is as before. *)
Theorem recv_rejects_oversize (B : build) (fd : Z) (msg : TLSMessage)
    (w : world) (h0 h1 : byte) (rest : list byte) (q : list segment) :
  rx w = Seg (h0 :: h1 :: rest) :: q ->
  be16 h0 h1 > KMYTH_TLS_MAX_MSG_SIZE B ->
  exists w',
    demo_tls_recv_msg B fd msg w
    = ((EXIT_FAILURE, set_msg_size (be16 h0 h1) msg), w')
    /\ trace w'
       = trace w ++ [Read fd 2 2;
                     Log LOG_ERR "length in TLS message header exceeds limit"]
    /\ heap w' = heap w
    /\ alloc_plan w' = alloc_plan w
    /\ rx w' = after_read 2 (h0 :: h1 :: rest) q.
Proof.
  intros Hrx Hbig.
  unfold demo_tls_recv_msg, run.
  rewrite bind_eq, (read_segment _ _ _ _ _ Hrx).
  change (take (Z.to_nat sizeof_hdr) (h0 :: h1 :: rest)) with [h0; h1].
  open_frame. simpl.
  change (Z.of_nat 2 =? 0) with false.
  change (Z.of_nat 2 =? sizeof_hdr) with true. simpl.
  rewrite (header_decoding h0 h1 []).
  apply Z.gtb_gt in Hbig. rewrite Hbig. simpl.
  eexists. split; [reflexivity |]. simpl.
  rewrite <- app_assoc. auto.
Qed.

Lemma recv_rejects_oversize_witness :
  fst (demo_tls_recv_msg sample_build 4 (mkMessage (mkHeader 0) 0)
         (set_rx [Seg [x40; x01; x2a]] idle))
  = (EXIT_FAILURE, mkMessage (mkHeader 16385) 0).
Proof.
  destruct (recv_rejects_oversize sample_build 4 (mkMessage (mkHeader 0) 0)
              (set_rx [Seg [x40; x01; x2a]] idle) x40 x01 [x2a] [])
    as (w' & Hrecv & _).
  - reflexivity.
  - vm_compute. reflexivity.
  - rewrite Hrecv. reflexivity.
Defined.

(** The outcome of [demo_tls_recv_msg] once the two header bytes have been
    read: either the length is above the ceiling, or the allocation fails, or
    the body [read] decides. *)
Lemma recv_after_header (B : build) (fd : Z) (msg : TLSMessage) (w : world)
    (h0 h1 : byte) (rest : list byte) (q : list segment) :
  rx w = Seg (h0 :: h1 :: rest) :: q ->
  let n := be16 h0 h1 in
  let w1 := emit (Read fd sizeof_hdr 2)
              (set_rx (after_read sizeof_hdr (h0 :: h1 :: rest) q) w) in
  forall p w2,
    calloc (R := Z * TLSMessage) n 1 w1 = (inr p, w2) ->
    forall r w3,
      read (R := Z * TLSMessage) fd n w2
      = (inr (r, delivered n (rx w2)), w3) ->
      demo_tls_recv_msg B fd msg w
      = if n >? KMYTH_TLS_MAX_MSG_SIZE B then
          ((EXIT_FAILURE, set_msg_size n msg),
           emit (Log LOG_ERR "length in TLS message header exceeds limit")
             w1)
        else if p =? NULL then
          ((EXIT_FAILURE, set_body p (set_msg_size n msg)),
           emit (Log LOG_ERR "failed to allocate received message buffer")
             w2)
        else if r =? 0 then
          ((EXIT_FAILURE, set_body p (set_msg_size n msg)),
           emit (Log LOG_ERR "TLS connection is closed")
             (store p (delivered n (rx w2)) w3))
        else if negb (r =? n) then
          ((EXIT_FAILURE, set_body p (set_msg_size n msg)),
           emit (Log LOG_ERR "read incorrect number of TLS message bytes")
             (store p (delivered n (rx w2)) w3))
        else
          ((EXIT_SUCCESS, set_body p (set_msg_size n msg)),
           store p (delivered n (rx w2)) w3).
Proof.
  intros Hrx n w1 p w2 Hcalloc r w3 Hread.
  unfold demo_tls_recv_msg, run.
  rewrite bind_eq, (read_segment _ _ _ _ _ Hrx).
  change (take (Z.to_nat sizeof_hdr) (h0 :: h1 :: rest)) with [h0; h1].
  change (Z.of_nat (length [h0; h1])) with 2.
  cbv beta iota.
  rewrite bind_eq.
  change (2 =? 0) with false. change (2 =? sizeof_hdr) with true.
  cbv beta iota. unfold when at 1. unfold negb at 1. unfold fn_ret at 1.
  cbv beta iota zeta.
  cbn [msg_size hdr body set_msg_size set_body].
  rewrite (header_decoding h0 h1 []). fold n. fold w1.
  rewrite bind_eq. unfold when at 1.
  destruct (n >? KMYTH_TLS_MAX_MSG_SIZE B) eqn:Hmax.
  { reflexivity. }
  unfold fn_ret at 1. cbv beta iota.
  rewrite bind_eq, Hcalloc. cbv beta iota.
  rewrite bind_eq. unfold when at 1.
  destruct (p =? NULL) eqn:Hnull.
  { reflexivity. }
  unfold fn_ret at 1. cbv beta iota.
  rewrite bind_eq. unfold read_into. rewrite bind_eq, Hread.
  cbv beta iota. rewrite bind_eq. unfold invoke at 1. cbv beta iota.
  unfold mret at 1, Fn_ret at 1, fn_ret at 1. cbv beta iota.
  rewrite bind_eq.
  destruct (r =? 0) eqn:Hzero.
  { reflexivity. }
  unfold when at 1.
  destruct (negb (r =? n)) eqn:Hshort; reflexivity.
Qed.

(** Without two header bytes at the head of the socket the function fails
    and leaves the message alone. *)
Lemma recv_without_header (B : build) (fd : Z) (msg : TLSMessage)
    (w : world) :
  (forall h0 h1 rest q, rx w <> Seg (h0 :: h1 :: rest) :: q) ->
  fst (demo_tls_recv_msg B fd msg w) = (EXIT_FAILURE, msg).
Proof.
  intros Hshort. unfold demo_tls_recv_msg, run. rewrite bind_eq.
  unfold read.
  destruct (rx w) as [| [[| b0 [| b1 rest]] |] q] eqn:Hrx;
    try reflexivity.
  exfalso. by eapply Hshort.
Qed.

(** C9: whenever [demo_tls_recv_msg] returns [EXIT_SUCCESS], the length of
    the message it hands back is above 0 and at most the ceiling, and the
    body points to a block of exactly that many bytes.  A header that
    declares length 0 always ends in [EXIT_FAILURE]. *)
Theorem recv_success_invariant (B : build) (fd : Z) (msg : TLSMessage)
    (w : world) :
  (forall r msg' w',
      demo_tls_recv_msg B fd msg w = ((r, msg'), w') ->
      r = EXIT_SUCCESS ->
      0 < msg_size (hdr msg') <= KMYTH_TLS_MAX_MSG_SIZE B
      /\ body msg' <> NULL
      /\ exists buf,
          heap w' !! body msg' = Some buf
          /\ Z.of_nat (length buf) = msg_size (hdr msg'))
  /\ (forall h0 h1 rest q,
         rx w = Seg (h0 :: h1 :: rest) :: q ->
         be16 h0 h1 = 0 ->
         fst (fst (demo_tls_recv_msg B fd msg w)) = EXIT_FAILURE).
Proof.
  split.
  - intros r msg' w' Hrecv Hok.
    destruct (rx w) as [| [[| h0 [| h1 rest]] |] q] eqn:Hrx;
      try (rewrite recv_without_header in Hrecv
             by (intros; rewrite Hrx; discriminate);
           simpl in Hrecv; inversion Hrecv; subst; discriminate);
      try (pose proof (recv_without_header B fd msg w) as Hfail;
           rewrite Hrecv in Hfail; simpl in Hfail;
           assert ((r, msg') = (EXIT_FAILURE, msg)) as Heq
             by (apply Hfail; intros; rewrite Hrx; discriminate);
           inversion Heq; subst; discriminate).
    pose proof (be16_range h0 h1) as Hn.
    set (w1 := emit (Read fd sizeof_hdr 2)
                 (set_rx (after_read sizeof_hdr (h0 :: h1 :: rest) q) w)).
    destruct (calloc_spec (R := Z * TLSMessage) (be16 h0 h1) 1 w1)
      as (p & w2 & Hcalloc & Hp & _ & _).
    destruct (read_spec (R := Z * TLSMessage) fd (be16 h0 h1) w2)
      as (r2 & w3 & Hread & Hr2 & Hlen & Hheap & _).
    rewrite (recv_after_header B fd msg w _ _ _ _ Hrx _ _ Hcalloc _ _ Hread)
      in Hrecv.
    destruct (be16 h0 h1 >? KMYTH_TLS_MAX_MSG_SIZE B) eqn:Hmax;
      [inversion Hrecv; subst; discriminate |].
    destruct (p =? NULL) eqn:Hnull; [inversion Hrecv; subst; discriminate |].
    destruct (r2 =? 0) eqn:Hzero; [inversion Hrecv; subst; discriminate |].
    destruct (negb (r2 =? be16 h0 h1)) eqn:Hfull;
      [inversion Hrecv; subst; discriminate |].
    inversion Hrecv; subst r msg' w'; clear Hrecv.
    rewrite Z.gtb_ltb in Hmax. apply Z.ltb_ge in Hmax.
    apply Z.eqb_neq in Hnull, Hzero.
    apply negb_false_iff, Z.eqb_eq in Hfull.
    destruct Hp as [[Hp _] | (_ & _ & Hheap2)]; [done |].
    destruct Hr2 as [[Hr2 _] | Hr2]; [lia |].
    cbn [msg_size hdr body set_msg_size set_body].
    split; [lia |]. split; [done |].
    eexists. split.
    + unfold store. cbn [heap set_heap]. rewrite lookup_alter_eq.
      rewrite Hheap, Hheap2, lookup_insert_eq. reflexivity.
    + simpl. rewrite length_app, length_drop, length_replicate. lia.
  - intros h0 h1 rest q Hrx Hzero.
    set (w1 := emit (Read fd sizeof_hdr 2)
                 (set_rx (after_read sizeof_hdr (h0 :: h1 :: rest) q) w)).
    destruct (calloc_spec (R := Z * TLSMessage) (be16 h0 h1) 1 w1)
      as (p & w2 & Hcalloc & _).
    destruct (read_spec (R := Z * TLSMessage) fd (be16 h0 h1) w2)
      as (r2 & w3 & Hread & Hr2 & Hlen & _).
    rewrite (recv_after_header B fd msg w _ _ _ _ Hrx _ _ Hcalloc _ _ Hread).
    rewrite Hzero in *.
    destruct (0 >? KMYTH_TLS_MAX_MSG_SIZE B); [reflexivity |].
    destruct (p =? NULL); [reflexivity |].
    destruct (r2 =? 0) eqn:Hr0; [reflexivity |].
    apply Z.eqb_neq in Hr0.
    destruct (negb (r2 =? 0)) eqn:Hneg; [reflexivity |].
    apply negb_false_iff, Z.eqb_eq in Hneg. lia.
Qed.

Lemma recv_success_invariant_witness :
  let w := set_rx [Seg [x00; x03; x61; x62; x63]] idle in
  let res := demo_tls_recv_msg sample_build 4 (mkMessage (mkHeader 0) 0) w in
  0 < msg_size (hdr (snd (fst res))) <= KMYTH_TLS_MAX_MSG_SIZE sample_build
  /\ body (snd (fst res)) <> NULL
  /\ exists buf,
      heap (snd res) !! body (snd (fst res)) = Some buf
      /\ Z.of_nat (length buf) = msg_size (hdr (snd (fst res))).
Proof.
  intros w res.
  destruct (recv_success_invariant sample_build 4
              (mkMessage (mkHeader 0) 0) w) as [Hinv _].
  apply (Hinv (fst (fst res)) (snd (fst res)) (snd res)).
  - subst res. by destruct (demo_tls_recv_msg _ _ _ _) as [[r m] w'].
  - vm_compute. reflexivity.
Defined.

(** C10: once the header has been read in full, a failing
    [demo_tls_recv_msg] does not put the message back.  The length field
    holds the decoded length, also when that length is what it rejects (the
    body pointer is then the one the caller passed).  When the length is
    accepted and [calloc] succeeds, so that it is the body [read] which
    fails, the body pointer is the new block, not [NULL] and not in the heap
    before, and the block holds the bytes the [read] delivered followed by
    the zeros [calloc] put there.  When [calloc] fails, the body pointer is
    [NULL]. *)
Theorem recv_failure_leaves_message_mutated (B : build) (fd : Z)
    (msg : TLSMessage) (w : world) (h0 h1 : byte) (rest : list byte)
    (q : list segment) :
  rx w = Seg (h0 :: h1 :: rest) :: q ->
  forall r msg' w',
    demo_tls_recv_msg B fd msg w = ((r, msg'), w') ->
    r = EXIT_FAILURE ->
    let n := be16 h0 h1 in
    let data := delivered n (after_read sizeof_hdr (h0 :: h1 :: rest) q) in
    msg_size (hdr msg') = n
    /\ (n > KMYTH_TLS_MAX_MSG_SIZE B -> body msg' = body msg)
    /\ (n <= KMYTH_TLS_MAX_MSG_SIZE B ->
        head (alloc_plan w) <> Some false ->
        body msg' <> NULL
        /\ heap w !! body msg' = None
        /\ heap w' !! body msg'
           = Some (data ++ replicate (Z.to_nat n - length data) x00))
    /\ (n <= KMYTH_TLS_MAX_MSG_SIZE B ->
        head (alloc_plan w) = Some false ->
        body msg' = NULL).
Proof.
  intros Hrx r msg' w' Hrecv Hfail n data.
  set (w1 := emit (Read fd sizeof_hdr 2)
               (set_rx (after_read sizeof_hdr (h0 :: h1 :: rest) q) w)).
  destruct (calloc_spec (R := Z * TLSMessage) n 1 w1)
    as (p & w2 & Hcalloc & Hp & Hrx2 & _).
  assert (head (alloc_plan w) = Some false -> p = NULL) as Hrefused.
  { intros Hplan. unfold calloc in Hcalloc.
    change (alloc_plan w1) with (alloc_plan w) in Hcalloc.
    destruct (alloc_plan w) as [| [|] plan]; try discriminate Hplan.
    by inversion Hcalloc. }
  change (alloc_plan w1) with (alloc_plan w) in Hp.
  destruct (read_spec (R := Z * TLSMessage) fd n w2)
    as (r2 & w3 & Hread & _ & _ & Hheap & _).
  rewrite (recv_after_header B fd msg w _ _ _ _ Hrx _ _ Hcalloc _ _ Hread)
    in Hrecv.
  fold n in Hrecv. rewrite Hrx2 in Hrecv.
  change (rx w1) with (after_read sizeof_hdr (h0 :: h1 :: rest) q) in Hrecv.
  fold data in Hrecv.
  assert (heap (store p data w3) !! p
          = (fun old => data ++ drop (length data) old) <$> heap w2 !! p)
    as Hstored
    by (unfold store; cbn [heap set_heap];
        by rewrite lookup_alter_eq, Hheap).
  destruct (n >? KMYTH_TLS_MAX_MSG_SIZE B) eqn:Hmax.
  { inversion Hrecv; subst. apply Z.gtb_gt in Hmax.
    cbn [msg_size hdr body set_msg_size].
    split; [reflexivity |]. split; [reflexivity |].
    split; intros; lia. }
  rewrite Z.gtb_ltb in Hmax. apply Z.ltb_ge in Hmax.
  destruct (p =? NULL) eqn:Hnull.
  { inversion Hrecv; subst. apply Z.eqb_eq in Hnull.
    cbn [msg_size hdr body set_msg_size set_body].
    split; [reflexivity |]. split; [intros; lia |].
    split; [| done].
    intros _ Hplan.
    destruct Hp as [(_ & _ & Hfalse) | (Hp & _)]; [| done].
    by destruct Hplan. }
  apply Z.eqb_neq in Hnull.
  destruct Hp as [[Hp _] | (_ & Hfresh & Hheap2)]; [done |].
  rewrite Hheap2, lookup_insert_eq in Hstored. simpl in Hstored.
  rewrite drop_replicate, Z.mul_1_r in Hstored.
  assert (msg' = set_body p (set_msg_size n msg)
          /\ w' = emit (Log LOG_ERR
                          (if r2 =? 0 then "TLS connection is closed"
                           else "read incorrect number of TLS message bytes"))
                    (store p data w3)) as [-> ->].
  { destruct (r2 =? 0); [by inversion Hrecv |].
    destruct (negb (r2 =? n)); inversion Hrecv; subst; [done | discriminate]. }
  cbn [msg_size hdr body set_msg_size set_body].
  split; [reflexivity |]. split; [intros; lia |].
  split.
  - intros _ _. split; [exact Hnull |]. split; [exact Hfresh | exact Hstored].
  - intros _ Hplan. by apply Hrefused in Hplan.
Qed.

Lemma recv_failure_leaves_message_mutated_witness :
  let w := set_rx [Seg [x00; x05; x61; x62; x63]] idle in
  let res := demo_tls_recv_msg sample_build 4 (mkMessage (mkHeader 0) 0) w in
  msg_size (hdr (snd (fst res))) = 5
  /\ body (snd (fst res)) <> NULL
  /\ heap (snd res) !! body (snd (fst res))
     = Some [x61; x62; x63; x00; x00].
Proof.
  intros w res.
  destruct (recv_failure_leaves_message_mutated sample_build 4
              (mkMessage (mkHeader 0) 0) w x00 x05 [x61; x62; x63] []
              eq_refl (fst (fst res)) (snd (fst res)) (snd res))
    as (Hsize & _ & Hbody & _).
  - subst res. by destruct (demo_tls_recv_msg _ _ _ _) as [[r m] w'].
  - vm_compute. reflexivity.
  - split; [exact Hsize |].
    destruct Hbody as (Hnonnull & _ & Hblock);
      [vm_compute; discriminate | discriminate |].
    by split.
Defined.

Lemma write_whole {R} (fd : Z) (bytes : list byte) (count : Z) (w : world) :
  Forall (eq Whole) (wr_plan w) ->
  write (R := R) fd (Some bytes) count w
  = (inr (Z.of_nat (length bytes)),
     emit (Write fd count (Z.of_nat (length bytes)))
       (set_tx (tx w ++ bytes) (set_wr_plan (tail (wr_plan w)) w))).
Proof.
  intros Hplan. unfold write.
  destruct (wr_plan w) as [| [| k |] plan]; try reflexivity;
    inversion Hplan; discriminate.
Qed.

(** What [demo_tls_send_msg] does when the kernel takes both writes whole:
    the wire receives the length, high byte first, and then the body. *)
Lemma send_on_clear_line (B : build) (fd : Z) (msg : TLSMessage)
    (payload : list byte) (w : world) :
  0 < msg_size (hdr msg) <= KMYTH_TLS_MAX_MSG_SIZE B ->
  msg_size (hdr msg) < 65536 ->
  heap w !! body msg = Some payload ->
  Z.of_nat (length payload) = msg_size (hdr msg) ->
  Forall (eq Whole) (wr_plan w) ->
  exists w',
    demo_tls_send_msg B fd msg w = (EXIT_SUCCESS, w')
    /\ tx w' = tx w ++ be16_bytes (msg_size (hdr msg)) ++ payload
    /\ trace w' = trace w ++ [Write fd 2 2;
                              Write fd (msg_size (hdr msg))
                                (msg_size (hdr msg))].
Proof.
  intros Hsize Hu16 Hbody Hlen Hplan.
  unfold demo_tls_send_msg, run.
  rewrite bind_eq. unfold when at 1.
  replace (msg_size (hdr msg) >? KMYTH_TLS_MAX_MSG_SIZE B) with false
    by (symmetry; rewrite Z.gtb_ltb; apply Z.ltb_ge; lia).
  replace (msg_size (hdr msg) =? 0) with false
    by (symmetry; apply Z.eqb_neq; lia).
  cbv beta iota. unfold orb, fn_ret at 1. cbv beta iota zeta.
  rewrite header_encoding by lia.
  rewrite bind_eq, write_whole by exact Hplan.
  cbv beta iota. change (Z.of_nat (length (be16_bytes _))) with 2.
  rewrite bind_eq. unfold when at 1.
  change (negb (2 =? sizeof_hdr)) with false.
  unfold fn_ret at 1. cbv beta iota.
  rewrite bind_eq. unfold invoke at 1, load. cbn [heap emit set_tx set_wr_plan].
  rewrite Hbody. cbn [mbind option_bind].
  rewrite decide_True by lia. rewrite take_ge by lia.
  rewrite bind_eq, write_whole
    by (cbn [wr_plan emit set_tx set_wr_plan];
        destruct Hplan; [constructor | assumption]).
  rewrite Hlen. cbv beta iota.
  rewrite bind_eq. unfold when at 1.
  rewrite Z.eqb_refl. unfold negb, fn_ret at 1. cbv beta iota.
  eexists. split; [reflexivity |].
  cbn [tx trace emit set_tx set_wr_plan].
  by rewrite <- !app_assoc.
Qed.

(** What [demo_tls_recv_msg] does when the socket presents a frame without
    cutting the header or the body in two, and memory is available. *)
Lemma recv_on_clear_line (B : build) (fd : Z) (msg : TLSMessage) (w : world)
    (n : Z) (payload extra : list byte) (more : list segment) :
  0 < n <= KMYTH_TLS_MAX_MSG_SIZE B ->
  n < 65536 ->
  Z.of_nat (length payload) = n ->
  rx w = Seg (be16_bytes n ++ payload ++ extra) :: more
  \/ rx w = Seg (be16_bytes n) :: Seg (payload ++ extra) :: more ->
  head (alloc_plan w) <> Some false ->
  exists msg' w',
    demo_tls_recv_msg B fd msg w = ((EXIT_SUCCESS, msg'), w')
    /\ msg_size (hdr msg') = n
    /\ heap w' !! body msg' = Some payload
    /\ heap w !! body msg' = None.
Proof.
  intros Hsize Hu16 Hlen Hrx Halloc.
  set (h0 := byte_of_Z (n / 256)). set (h1 := byte_of_Z (n mod 256)).
  assert (be16 h0 h1 = n) as Hn by (apply be16_of_bytes; lia).
  assert (exists rest q,
             rx w = Seg (h0 :: h1 :: rest) :: q
             /\ after_read sizeof_hdr (h0 :: h1 :: rest) q
                = Seg (payload ++ extra) :: more)
    as (rest & q & Hhead & Hafter).
  { destruct Hrx as [Hone | Htwo].
    - exists (payload ++ extra), more. split; [exact Hone |].
      unfold after_read. change (drop _ _) with (payload ++ extra).
      destruct payload; [simpl in Hlen; lia | reflexivity].
    - exists [], (Seg (payload ++ extra) :: more). by split. }
  set (w1 := emit (Read fd sizeof_hdr 2)
               (set_rx (after_read sizeof_hdr (h0 :: h1 :: rest) q) w)).
  destruct (calloc_spec (R := Z * TLSMessage) (be16 h0 h1) 1 w1)
    as (p & w2 & Hcalloc & Hp & Hrx2 & _).
  destruct (read_spec (R := Z * TLSMessage) fd (be16 h0 h1) w2)
    as (r & w3 & Hread & Hr & _ & Hheap & _).
  rewrite (recv_after_header B fd msg w _ _ _ _ Hhead _ _ Hcalloc _ _ Hread).
  destruct Hp as [(_ & _ & Hplan) | (Hp & Hfresh & Hheap2)]; [done |].
  assert (delivered (be16 h0 h1) (rx w2) = payload) as Hdata.
  { rewrite Hrx2. change (rx w1) with (after_read sizeof_hdr
                                         (h0 :: h1 :: rest) q).
    rewrite Hafter, Hn. unfold delivered.
    replace (Z.to_nat n) with (length payload) by lia.
    by rewrite take_app_length. }
  rewrite Hdata in *. rewrite Hn in *.
  destruct Hr as [[_ Hnil] | Hr]; [subst payload; simpl in Hlen; lia |].
  replace (n >? KMYTH_TLS_MAX_MSG_SIZE B) with false
    by (symmetry; rewrite Z.gtb_ltb; apply Z.ltb_ge; lia).
  replace (p =? NULL) with false by (symmetry; by apply Z.eqb_neq).
  replace (r =? 0) with false by (symmetry; apply Z.eqb_neq; lia).
  replace (r =? n) with true by (symmetry; apply Z.eqb_eq; lia).
  cbn [negb]. do 2 eexists. split; [reflexivity |].
  cbn [msg_size hdr body set_msg_size set_body].
  split; [reflexivity |]. split; [| exact Hfresh].
  unfold store. cbn [heap set_heap].
  rewrite lookup_alter_eq, Hheap, Hheap2, lookup_insert_eq. simpl.
  rewrite drop_replicate, Z.mul_1_r.
  replace (Z.to_nat n - length payload)%nat with 0%nat by lia.
  by rewrite app_nil_r.
Qed.

(** C1 (as the code has it): take a message whose length L is above 0 and
    at most the ceiling, with a body of exactly L bytes, a sender whose
    writes are taken whole, and a receiver with memory to spare.  Then [demo_tls_send_msg] returns
    [EXIT_SUCCESS] and puts on the wire L as an unsigned big-endian 16-bit
    value followed by the body; and [demo_tls_recv_msg], reading those
    bytes as they were written (in one segment or in the two of the two
    writes, with anything after them), returns [EXIT_SUCCESS] with length L
    and a body holding the very same bytes. *)
Theorem send_recv_roundtrip (B : build) (fd fd' : Z) (msg msg0 : TLSMessage)
    (payload : list byte) (ws wr : world) :
  0 < msg_size (hdr msg) <= KMYTH_TLS_MAX_MSG_SIZE B ->
  msg_size (hdr msg) < 65536 ->
  heap ws !! body msg = Some payload ->
  Z.of_nat (length payload) = msg_size (hdr msg) ->
  Forall (eq Whole) (wr_plan ws) ->
  head (alloc_plan wr) <> Some false ->
  exists ws' sent,
    demo_tls_send_msg B fd msg ws = (EXIT_SUCCESS, ws')
    /\ tx ws' = tx ws ++ sent
    /\ sent = be16_bytes (msg_size (hdr msg)) ++ payload
    /\ forall extra more,
        rx wr = Seg (sent ++ extra) :: more
        \/ rx wr = Seg (take 2 sent) :: Seg (drop 2 sent ++ extra) :: more ->
        exists msg' wr',
          demo_tls_recv_msg B fd' msg0 wr = ((EXIT_SUCCESS, msg'), wr')
          /\ msg_size (hdr msg') = msg_size (hdr msg)
          /\ heap wr' !! body msg' = Some payload.
Proof.
  intros Hsize Hu16 Hbody Hlen Hplan Halloc.
  destruct (send_on_clear_line B fd msg payload ws Hsize Hu16 Hbody Hlen
              Hplan) as (ws' & Hsend & Htx & _).
  exists ws', (be16_bytes (msg_size (hdr msg)) ++ payload).
  split; [exact Hsend |]. split; [exact Htx |]. split; [reflexivity |].
  intros extra more Hrx.
  destruct (recv_on_clear_line B fd' msg0 wr (msg_size (hdr msg)) payload
              extra more Hsize Hu16 Hlen) as (msg' & wr' & Hrecv & Hl & Hb & _).
  - destruct Hrx as [Hone | Htwo]; [left | right].
    + by rewrite <- app_assoc in Hone.
    + exact Htwo.
  - exact Halloc.
  - by exists msg', wr'.
Qed.

Lemma send_recv_roundtrip_witness :
  let msg := mkMessage (mkHeader 3) 7 in
  let ws := set_heap {[ 7 := [x61; x62; x63] ]} idle in
  let sent := [x00; x03; x61; x62; x63] in
  demo_tls_send_msg sample_build 3 msg ws
  = (EXIT_SUCCESS,
     emit (Write 3 3 3) (emit (Write 3 2 2) (set_tx sent ws)))
  /\ exists msg' wr',
      demo_tls_recv_msg sample_build 4 (mkMessage (mkHeader 0) 0)
        (set_rx [Seg (sent ++ [x2a])] idle)
      = ((EXIT_SUCCESS, msg'), wr')
      /\ msg_size (hdr msg') = 3
      /\ heap wr' !! body msg' = Some [x61; x62; x63].
Proof.
  intros msg ws sent.
  destruct (send_recv_roundtrip sample_build 3 4 msg
              (mkMessage (mkHeader 0) 0) [x61; x62; x63] ws
              (set_rx [Seg (sent ++ [x2a])] idle))
    as (ws' & sent' & Hsend & _ & Hsent & Hrecv).
  - simpl. lia.
  - simpl. lia.
  - reflexivity.
  - reflexivity.
  - constructor.
  - discriminate.
  - split; [reflexivity |].
    apply (Hrecv [x2a] []). left. rewrite Hsent. reflexivity.
Defined.

(** The same bytes, delivered with the body in two pieces: the message is
    sent with success, the socket of the receiver holds exactly the bytes
    sent, and [demo_tls_recv_msg] fails. *)
Lemma roundtrip_fails_on_split_body :
  let msg := mkMessage (mkHeader 3) 7 in
  let ws := set_heap {[ 7 := [x61; x62; x63] ]} idle in
  let wr := set_rx [Seg [x00; x03; x61]; Seg [x62; x63]] idle in
  fst (demo_tls_send_msg sample_build 3 msg ws) = EXIT_SUCCESS
  /\ stream_bytes (rx wr) = tx (snd (demo_tls_send_msg sample_build 3 msg ws))
  /\ fst (fst (demo_tls_recv_msg sample_build 4 (mkMessage (mkHeader 0) 0) wr))
     = EXIT_FAILURE
  /\ EXIT_FAILURE <> EXIT_SUCCESS.
Proof. vm_compute. repeat split. discriminate. Qed.

(** *** Further properties of the message functions *)

Lemma calloc_ok {R} (nmemb size : Z) (w : world) :
  head (alloc_plan w) <> Some false ->
  let p := fresh ({[NULL]} ∪ dom (heap w)) in
  calloc (R := R) nmemb size w
  = (inr p,
     emit (Calloc nmemb size p)
       (set_heap (<[p := replicate (Z.to_nat (nmemb * size)) x00]> (heap w))
          (set_alloc_plan (tail (alloc_plan w)) w)))
  /\ p <> NULL
  /\ heap w !! p = None.
Proof.
  intros Hplan p.
  assert (p <> NULL /\ heap w !! p = None) as [Hp Hfree].
  { pose proof (is_fresh ({[NULL]} ∪ dom (heap w))) as Hf. fold p in Hf.
    split; [set_solver |]. apply not_elem_of_dom. set_solver. }
  split; [| by split].
  unfold calloc. fold p.
  destruct (alloc_plan w) as [| [|] plan]; try reflexivity. by destruct Hplan.
Qed.

Lemma calloc_refused {R} (nmemb size : Z) (w : world) :
  head (alloc_plan w) = Some false ->
  calloc (R := R) nmemb size w
  = (inr NULL,
     emit (Calloc nmemb size NULL) (set_alloc_plan (tail (alloc_plan w)) w)).
Proof.
  intros Hplan. unfold calloc.
  destruct (alloc_plan w) as [| [|] plan]; try discriminate. reflexivity.
Qed.

(** What every [write] of readable bytes does: it takes a prefix of them,
    returns its length or -1 with nothing taken, and touches nothing but
    the wire, its plan and the trace. *)
Lemma write_spec {R} (fd : Z) (bytes : list byte) (count : Z) (w : world) :
  exists r taken w1,
    write (R := R) fd (Some bytes) count w = (inr r, w1)
    /\ tx w1 = tx w ++ taken
    /\ taken `prefix_of` bytes
    /\ (r = -1 /\ taken = [] \/ r = Z.of_nat (length taken))
    /\ heap w1 = heap w
    /\ rx w1 = rx w
    /\ alloc_plan w1 = alloc_plan w
    /\ trace w1 = trace w ++ [Write fd count r].
Proof.
  unfold write.
  destruct (wr_plan w) as [| [| k |] plan].
  - exists (Z.of_nat (length bytes)), bytes. eexists.
    split; [reflexivity |]. simpl. repeat split; auto.
  - exists (Z.of_nat (length bytes)), bytes. eexists.
    split; [reflexivity |]. simpl. repeat split; auto.
  - exists (Z.of_nat (length (take k bytes))), (take k bytes). eexists.
    split; [reflexivity |]. simpl. repeat split; auto.
    apply prefix_take.
  - exists (-1), []. eexists.
    split; [reflexivity |]. simpl. rewrite app_nil_r. repeat split; auto.
    apply prefix_nil.
Qed.

Lemma prefix_full_length {A} (l k : list A) :
  l `prefix_of` k -> length l = length k -> l = k.
Proof.
  intros [rest ->] Hlen. rewrite length_app in Hlen.
  destruct rest; [by rewrite app_nil_r | simpl in Hlen; lia].
Qed.

(** X13: [demo_tls_send_msg] gives up after a header write that does not
    take both bytes.  When the first [write] fails or takes fewer than two
    bytes, the function returns [EXIT_FAILURE] with the line "sending TLS
    message header failed", the body is never written, and the wire holds
    what that one [write] took of the header. *)
Theorem send_stops_after_header_failure (B : build) (fd : Z)
    (msg : TLSMessage) (w : world) (plan : list answer) (k : nat) :
  0 < msg_size (hdr msg) <= KMYTH_TLS_MAX_MSG_SIZE B ->
  msg_size (hdr msg) < 65536 ->
  wr_plan w = Refused :: plan
  \/ wr_plan w = Partial k :: plan /\ (k < 2)%nat ->
  exists r taken w',
    demo_tls_send_msg B fd msg w = (EXIT_FAILURE, w')
    /\ trace w'
       = trace w ++ [Write fd 2 r;
                     Log LOG_ERR "sending TLS message header failed"]
    /\ r <> 2
    /\ tx w' = tx w ++ taken
    /\ taken `prefix_of` be16_bytes (msg_size (hdr msg))
    /\ (length taken < 2)%nat
    /\ wr_plan w' = plan.
Proof.
  intros Hsize Hu16 Hplan.
  unfold demo_tls_send_msg, run.
  rewrite bind_eq. unfold when at 1.
  replace (msg_size (hdr msg) >? KMYTH_TLS_MAX_MSG_SIZE B) with false
    by (symmetry; rewrite Z.gtb_ltb; apply Z.ltb_ge; lia).
  replace (msg_size (hdr msg) =? 0) with false
    by (symmetry; apply Z.eqb_neq; lia).
  cbv beta iota. unfold orb, fn_ret at 1. cbv beta iota zeta.
  rewrite header_encoding by lia.
  rewrite bind_eq. unfold write at 1.
  destruct Hplan as [-> | [-> Hk]].
  - exists (-1), []. eexists. split; [reflexivity |]. simpl.
    rewrite <- app_assoc, app_nil_r.
    split; [reflexivity |]. split; [lia |]. split; [reflexivity |].
    split; [apply prefix_nil |]. split; [lia | reflexivity].
  - exists (Z.of_nat (length (take k (be16_bytes (msg_size (hdr msg)))))),
      (take k (be16_bytes (msg_size (hdr msg)))).
    assert (length (take k (be16_bytes (msg_size (hdr msg)))) < 2)%nat
      as Hshort by (rewrite length_take; lia).
    rewrite bind_eq. unfold when at 1.
    replace (Z.of_nat (length (take k (be16_bytes (msg_size (hdr msg)))))
             =? sizeof_hdr) with false
      by (symmetry; apply Z.eqb_neq; unfold sizeof_hdr; lia).
    eexists. split; [reflexivity |]. simpl.
    rewrite <- app_assoc.
    split; [reflexivity |].
    split; [lia |]. split; [reflexivity |].
    split; [apply prefix_take |]. split; [exact Hshort | reflexivity].
Qed.

Lemma send_stops_after_header_failure_witness :
  let msg := mkMessage (mkHeader 3) 7 in
  let w := set_wr_plan [Partial 1] (set_heap {[ 7 := [x61; x62; x63] ]} idle) in
  fst (demo_tls_send_msg sample_build 3 msg w) = EXIT_FAILURE
  /\ tx (snd (demo_tls_send_msg sample_build 3 msg w)) = [x00].
Proof.
  intros msg w.
  destruct (send_stops_after_header_failure sample_build 3 msg w [] 1%nat)
    as (r & taken & w' & Hsend & _).
  - simpl. lia.
  - simpl. lia.
  - right. split; [reflexivity | lia].
  - rewrite Hsend. split; [reflexivity |].
    vm_compute in Hsend. inversion Hsend. reflexivity.
Defined.

(** X14: whatever the kernel does with the writes, [demo_tls_send_msg] puts
    on the wire a prefix of the frame (the length, high byte first, then
    the body) and nothing else, and it returns [EXIT_SUCCESS] exactly when
    that prefix is the whole frame; a success also means the length was
    valid.  The heap, the incoming data and the allocator are not
    touched. *)
Theorem send_writes_a_prefix_of_the_frame (B : build) (fd : Z)
    (msg : TLSMessage) (payload : list byte) (w : world) :
  0 <= msg_size (hdr msg) < 65536 ->
  load (body msg) (msg_size (hdr msg)) w = Some payload ->
  exists sent,
    let r := fst (demo_tls_send_msg B fd msg w) in
    let w' := snd (demo_tls_send_msg B fd msg w) in
    let frame := be16_bytes (msg_size (hdr msg)) ++ payload in
    tx w' = tx w ++ sent
    /\ sent `prefix_of` frame
    /\ (r = EXIT_SUCCESS <-> sent = frame)
    /\ (r = EXIT_SUCCESS \/ r = EXIT_FAILURE)
    /\ (r = EXIT_SUCCESS ->
        0 < msg_size (hdr msg) <= KMYTH_TLS_MAX_MSG_SIZE B)
    /\ heap w' = heap w /\ rx w' = rx w /\ alloc_plan w' = alloc_plan w.
Proof.
  intros Hu16 Hload.
  assert (Z.of_nat (length payload) = msg_size (hdr msg)) as Hlen.
  { unfold load in Hload. destruct (heap w !! body msg) as [buf |];
      [| discriminate]. simpl in Hload.
    destruct (decide _) as [Hfit |]; [| discriminate].
    inversion Hload. rewrite length_take. lia. }
  set (header := be16_bytes (msg_size (hdr msg))).
  destruct (demo_tls_send_msg B fd msg w) as [r w'] eqn:Hsend.
  cbn [fst snd].
  unfold demo_tls_send_msg, run in Hsend.
  rewrite bind_eq in Hsend. unfold when at 1 in Hsend.
  destruct ((msg_size (hdr msg) >? KMYTH_TLS_MAX_MSG_SIZE B)
            || (msg_size (hdr msg) =? 0)) eqn:Hbad.
  { inversion Hsend; subst r w'. exists []. cbn [tx emit].
    rewrite app_nil_r.
    split; [reflexivity |]. split; [apply prefix_nil |].
    split; [split; [discriminate | intros Hnil; discriminate Hnil] |].
    split; [by right |]. split; [discriminate | done]. }
  apply orb_false_iff in Hbad. destruct Hbad as [Hmax Hzero].
  rewrite Z.gtb_ltb in Hmax. apply Z.ltb_ge in Hmax.
  apply Z.eqb_neq in Hzero.
  unfold fn_ret at 1 in Hsend. cbv beta iota zeta in Hsend.
  rewrite header_encoding in Hsend by lia. fold header in Hsend.
  destruct (write_spec (R := Z) fd header sizeof_hdr w)
    as (r1 & t1 & w1 & Hw1 & Htx1 & Hpre1 & Hr1 & Hheap1 & Hrx1 & Hal1 & _).
  rewrite bind_eq, Hw1 in Hsend. cbv beta iota in Hsend.
  rewrite bind_eq in Hsend. unfold when at 1 in Hsend.
  destruct (r1 =? sizeof_hdr) eqn:Hfull; cbn [negb] in Hsend.
  2:{ apply Z.eqb_neq in Hfull. unfold sizeof_hdr in Hfull.
      inversion Hsend; subst r w'. exists t1. cbn [tx heap rx alloc_plan emit].
      split; [exact Htx1 |]. split; [by apply prefix_app_r |].
      split; [split; [discriminate |] |].
      - intros ->. apply prefix_length in Hpre1.
        destruct Hr1 as [[_ Hnil] | Hr1]; [discriminate Hnil |].
        rewrite length_app in Hr1, Hpre1. simpl in Hr1, Hpre1. lia.
      - split; [by right |]. split; [discriminate | done]. }
  apply Z.eqb_eq in Hfull. unfold sizeof_hdr in Hfull.
  assert (t1 = header) as ->.
  { apply prefix_full_length; [exact Hpre1 |].
    destruct Hr1 as [[Hr1 _] | Hr1]; [lia |]. simpl. lia. }
  unfold fn_ret at 1 in Hsend. cbv beta iota in Hsend.
  rewrite bind_eq in Hsend. unfold invoke at 1 in Hsend.
  cbv beta iota in Hsend.
  assert (load (body msg) (msg_size (hdr msg)) w1 = Some payload) as Hload1
    by (unfold load in *; by rewrite Hheap1).
  rewrite Hload1 in Hsend.
  destruct (write_spec (R := Z) fd payload (msg_size (hdr msg)) w1)
    as (r2 & t2 & w2 & Hw2 & Htx2 & Hpre2 & Hr2 & Hheap2 & Hrx2 & Hal2 & _).
  rewrite bind_eq, Hw2 in Hsend. cbv beta iota in Hsend.
  rewrite bind_eq in Hsend. unfold when at 1 in Hsend.
  exists (header ++ t2).
  assert (tx w2 = tx w ++ header ++ t2) as Htx
    by (by rewrite Htx2, Htx1, <- app_assoc).
  destruct (r2 =? msg_size (hdr msg)) eqn:Hfull2; cbn [negb] in Hsend;
    inversion Hsend; subst r w'; cbn [tx heap rx alloc_plan emit].
  - apply Z.eqb_eq in Hfull2.
    assert (t2 = payload) as ->.
    { apply prefix_full_length; [exact Hpre2 |].
      destruct Hr2 as [[Hr2 _] | Hr2]; lia. }
    split; [exact Htx |]. split; [reflexivity |].
    split; [done |]. split; [by left |]. split; [intros _; lia |].
    by rewrite Hheap2, Hrx2, Hal2.
  - apply Z.eqb_neq in Hfull2.
    split; [exact Htx |]. split; [by apply prefix_app |].
    split; [split; [discriminate |] |].
    + intros Heq. apply app_inv_head in Heq. subst t2.
      destruct Hr2 as [[_ Hnil] | Hr2]; [| lia].
      subst payload. simpl in Hlen. lia.
    + split; [by right |]. split; [discriminate |].
      by rewrite Hheap2, Hrx2, Hal2.
Qed.

Lemma send_writes_a_prefix_of_the_frame_witness :
  let msg := mkMessage (mkHeader 3) 7 in
  let w := set_wr_plan [Whole; Partial 2]
             (set_heap {[ 7 := [x61; x62; x63] ]} idle) in
  fst (demo_tls_send_msg sample_build 3 msg w) = EXIT_FAILURE
  /\ tx (snd (demo_tls_send_msg sample_build 3 msg w))
     = [x00; x03; x61; x62].
Proof.
  intros msg w.
  destruct (send_writes_a_prefix_of_the_frame sample_build 3 msg
              [x61; x62; x63] w) as (sent & _ & _ & _ & Hr & _).
  - simpl. lia.
  - reflexivity.
  - split; [| reflexivity].
    destruct Hr as [Hr | Hr]; [discriminate Hr | exact Hr].
Defined.

(** X15: when [calloc] returns [NULL], [demo_tls_recv_msg] returns
    [EXIT_FAILURE] with the line "failed to allocate received message
    buffer" without reading any further: the body pointer the caller passed
    in is overwritten with [NULL], and the body of the frame is still in the
    socket. *)
Theorem recv_allocation_failure (B : build) (fd : Z) (msg : TLSMessage)
    (w : world) (h0 h1 : byte) (rest : list byte) (q : list segment) :
  rx w = Seg (h0 :: h1 :: rest) :: q ->
  be16 h0 h1 <= KMYTH_TLS_MAX_MSG_SIZE B ->
  head (alloc_plan w) = Some false ->
  exists w',
    demo_tls_recv_msg B fd msg w
    = ((EXIT_FAILURE, mkMessage (mkHeader (be16 h0 h1)) NULL), w')
    /\ trace w'
       = trace w ++ [Read fd 2 2;
                     Calloc (be16 h0 h1) 1 NULL;
                     Log LOG_ERR "failed to allocate received message buffer"]
    /\ heap w' = heap w
    /\ rx w' = after_read sizeof_hdr (h0 :: h1 :: rest) q.
Proof.
  intros Hrx Hsize Hplan.
  set (w1 := emit (Read fd sizeof_hdr 2)
               (set_rx (after_read sizeof_hdr (h0 :: h1 :: rest) q) w)).
  pose proof (calloc_refused (R := Z * TLSMessage) (be16 h0 h1) 1 w1 Hplan)
    as Hcalloc.
  destruct (read_spec (R := Z * TLSMessage) fd (be16 h0 h1)
              (emit (Calloc (be16 h0 h1) 1 NULL)
                 (set_alloc_plan (tail (alloc_plan w1)) w1)))
    as (r & w3 & Hread & _).
  rewrite (recv_after_header B fd msg w _ _ _ _ Hrx _ _ Hcalloc _ _ Hread).
  replace (be16 h0 h1 >? KMYTH_TLS_MAX_MSG_SIZE B) with false
    by (symmetry; rewrite Z.gtb_ltb; apply Z.ltb_ge; lia).
  change (NULL =? NULL) with true. cbv iota.
  eexists. split; [reflexivity |].
  cbn [trace heap rx emit set_alloc_plan set_rx w1].
  by rewrite <- !app_assoc.
Qed.

Lemma recv_allocation_failure_witness :
  fst (demo_tls_recv_msg sample_build 4 (mkMessage (mkHeader 0) 99)
         (set_alloc_plan [false] (set_rx [Seg [x00; x01; x2a]] idle)))
  = (EXIT_FAILURE, mkMessage (mkHeader 1) NULL).
Proof.
  destruct (recv_allocation_failure sample_build 4
              (mkMessage (mkHeader 0) 99)
              (set_alloc_plan [false] (set_rx [Seg [x00; x01; x2a]] idle))
              x00 x01 [x2a] [])
    as (w' & Hrecv & _).
  - reflexivity.
  - vm_compute. discriminate.
  - reflexivity.
  - rewrite Hrecv. reflexivity.
Defined.

(** [demo_tls_recv_msg] from the body [read] on, when the header is in and
    memory is there. *)
Lemma recv_with_memory (B : build) (fd : Z) (msg : TLSMessage) (w : world)
    (h0 h1 : byte) (rest : list byte) (q : list segment) :
  rx w = Seg (h0 :: h1 :: rest) :: q ->
  be16 h0 h1 <= KMYTH_TLS_MAX_MSG_SIZE B ->
  head (alloc_plan w) <> Some false ->
  let n := be16 h0 h1 in
  let p := fresh ({[NULL]} ∪ dom (heap w)) in
  let w2 := emit (Calloc n 1 p)
              (set_heap (<[p := replicate (Z.to_nat n) x00]> (heap w))
                 (set_alloc_plan (tail (alloc_plan w))
                    (emit (Read fd sizeof_hdr 2)
                       (set_rx (after_read sizeof_hdr (h0 :: h1 :: rest) q)
                          w)))) in
  p <> NULL /\ heap w !! p = None
  /\ forall r data w3,
      read (R := Z * TLSMessage) fd n w2 = (inr (r, data), w3) ->
      demo_tls_recv_msg B fd msg w
      = if r =? 0 then
          ((EXIT_FAILURE, mkMessage (mkHeader n) p),
           emit (Log LOG_ERR "TLS connection is closed") (store p data w3))
        else if negb (r =? n) then
          ((EXIT_FAILURE, mkMessage (mkHeader n) p),
           emit (Log LOG_ERR "read incorrect number of TLS message bytes")
             (store p data w3))
        else ((EXIT_SUCCESS, mkMessage (mkHeader n) p), store p data w3).
Proof.
  intros Hrx Hsize Hplan n p w2.
  set (w1 := emit (Read fd sizeof_hdr 2)
               (set_rx (after_read sizeof_hdr (h0 :: h1 :: rest) q) w)).
  destruct (calloc_ok (R := Z * TLSMessage) n 1 w1 Hplan)
    as (Hcalloc & Hp & Hfree).
  rewrite Z.mul_1_r in Hcalloc.
  change (fresh ({[NULL]} ∪ dom (heap w1))) with p in Hcalloc, Hp, Hfree.
  split; [exact Hp |]. split; [exact Hfree |].
  intros r data w3 Hread.
  destruct (read_spec (R := Z * TLSMessage) fd n w2)
    as (r' & w3' & Hread' & _).
  assert (r' = r /\ delivered n (rx w2) = data /\ w3' = w3)
    as (-> & Hdata & ->) by (rewrite Hread in Hread'; by inversion Hread').
  rewrite (recv_after_header B fd msg w _ _ _ _ Hrx _ _ Hcalloc _ _ Hread').
  fold n. fold p.
  replace (n >? KMYTH_TLS_MAX_MSG_SIZE B) with false
    by (symmetry; rewrite Z.gtb_ltb; apply Z.ltb_ge; subst n; lia).
  replace (p =? NULL) with false by (symmetry; by apply Z.eqb_neq).
  rewrite <- Hdata. reflexivity.
Qed.

(** X16: with the header in and the buffer allocated, the body is asked for
    once and never again.  If the peer has closed, the function returns
    [EXIT_FAILURE] with the line "TLS connection is closed".  If the socket
    delivers some but not all of the body, or the [read] fails, it returns
    [EXIT_FAILURE] with the line "read incorrect number of TLS message
    bytes": the bytes delivered are consumed, and whatever follows (the
    rest of the body included) stays in the socket. *)
Theorem recv_body_read_failures (B : build) (fd : Z) (msg : TLSMessage)
    (w : world) (h0 h1 : byte) (rest : list byte) (q : list segment) :
  rx w = Seg (h0 :: h1 :: rest) :: q ->
  be16 h0 h1 <= KMYTH_TLS_MAX_MSG_SIZE B ->
  head (alloc_plan w) <> Some false ->
  let n := be16 h0 h1 in
  let p := fresh ({[NULL]} ∪ dom (heap w)) in
  let after := after_read sizeof_hdr (h0 :: h1 :: rest) q in
  let outcome r line left :=
    exists w',
      demo_tls_recv_msg B fd msg w
      = ((EXIT_FAILURE, mkMessage (mkHeader n) p), w')
      /\ trace w' = trace w ++ [Read fd 2 2; Calloc n 1 p; Read fd n r;
                                Log LOG_ERR line]
      /\ rx w' = left in
  (after = [] -> outcome 0 "TLS connection is closed" [])
  /\ (forall part q',
         after = Seg part :: q' ->
         0 < Z.of_nat (length part) < n ->
         outcome (Z.of_nat (length part))
           "read incorrect number of TLS message bytes" q')
  /\ (forall q',
         after = SegErr :: q' ->
         outcome (-1) "read incorrect number of TLS message bytes" q').
Proof.
  intros Hrx Hsize Hplan n p after outcome.
  destruct (recv_with_memory B fd msg w h0 h1 rest q Hrx Hsize Hplan)
    as (_ & _ & Hrecv).
  fold n p in Hrecv. subst outcome. cbv beta.
  split; [| split].
  - intros Hafter. eexists. split.
    + erewrite Hrecv by (apply read_closed; exact Hafter). reflexivity.
    + cbn [trace rx emit store set_heap set_alloc_plan set_rx].
      split; [by rewrite <- !app_assoc | exact Hafter].
  - intros part q' Hafter Hlen. eexists. split.
    + erewrite Hrecv by (apply read_segment; exact Hafter).
      rewrite take_ge by lia.
      replace (Z.of_nat (length part) =? 0) with false
        by (symmetry; apply Z.eqb_neq; lia).
      replace (Z.of_nat (length part) =? n) with false
        by (symmetry; apply Z.eqb_neq; lia).
      reflexivity.
    + cbn [trace rx emit store set_heap set_alloc_plan set_rx].
      split; [by rewrite <- !app_assoc |].
      unfold after_read. by rewrite drop_ge by lia.
  - intros q' Hafter. eexists. split.
    + erewrite Hrecv by (apply read_error; exact Hafter).
      change (-1 =? 0) with false.
      replace (-1 =? n) with false
        by (symmetry; apply Z.eqb_neq; pose proof (be16_range h0 h1);
            subst n; lia).
      reflexivity.
    + cbn [trace rx emit store set_heap set_alloc_plan set_rx].
      split; [by rewrite <- !app_assoc | reflexivity].
Qed.

Lemma recv_body_read_failures_witness :
  let w := set_rx [Seg [x00; x05; x61; x62]; Seg [x63; x64; x65]] idle in
  let res := demo_tls_recv_msg sample_build 4 (mkMessage (mkHeader 0) 0) w in
  fst (fst res) = EXIT_FAILURE /\ rx (snd res) = [Seg [x63; x64; x65]].
Proof.
  intros w res.
  destruct (recv_body_read_failures sample_build 4 (mkMessage (mkHeader 0) 0)
              w x00 x05 [x61; x62] [Seg [x63; x64; x65]])
    as (_ & Hshort & _).
  - reflexivity.
  - vm_compute. discriminate.
  - discriminate.
  - destruct (Hshort [x61; x62] [Seg [x63; x64; x65]]) as (w' & Hrecv & _ & Hrx).
    + reflexivity.
    + vm_compute. split; reflexivity.
    + subst res. rewrite Hrecv. by split.
Defined.

Lemma calloc_wire {R} (nmemb size : Z) (w : world) (p : Z) (w1 : world) :
  calloc (R := R) nmemb size w = (inr p, w1) ->
  tx w1 = tx w /\ wr_plan w1 = wr_plan w.
Proof.
  unfold calloc.
  destruct (alloc_plan w) as [| [|] plan]; intros H; inversion H; by subst.
Qed.

(** X17: what [demo_tls_recv_msg] can and cannot touch, on every input.  It
    never writes to the socket.  Every block that was in the heap is still
    there, with the same bytes.  It allocates at most once, and then
    [nmemb] is the decoded length, between 0 and the ceiling, and [size]
    is 1; it reads at most twice. *)
Theorem recv_footprint (B : build) (fd : Z) (msg : TLSMessage) (w : world) :
  exists evs,
    let w' := snd (demo_tls_recv_msg B fd msg w) in
    trace w' = trace w ++ evs
    /\ tx w' = tx w
    /\ wr_plan w' = wr_plan w
    /\ (forall a block, heap w !! a = Some block -> heap w' !! a = Some block)
    /\ Forall (fun e => match e with
                        | Calloc nmemb size _ =>
                            0 <= nmemb <= KMYTH_TLS_MAX_MSG_SIZE B /\ size = 1
                        | Write _ _ _ => False
                        | _ => True
                        end) evs
    /\ (length (List.filter (fun e => match e with
                                      | Calloc _ _ _ => true
                                      | _ => false
                                      end) evs) <= 1)%nat
    /\ (length (List.filter (fun e => match e with
                                      | Read _ _ _ => true
                                      | _ => false
                                      end) evs) <= 2)%nat.
Proof.
  assert (forall r line q,
             snd (demo_tls_recv_msg B fd msg w)
             = emit (Log LOG_ERR line)
                 (emit (Read fd sizeof_hdr r) (set_rx q w)) ->
             exists evs,
               let w' := snd (demo_tls_recv_msg B fd msg w) in
               trace w' = trace w ++ evs
               /\ tx w' = tx w
               /\ wr_plan w' = wr_plan w
               /\ (forall a block,
                      heap w !! a = Some block -> heap w' !! a = Some block)
               /\ Forall (fun e => match e with
                                   | Calloc nmemb size _ =>
                                       0 <= nmemb <= KMYTH_TLS_MAX_MSG_SIZE B
                                       /\ size = 1
                                   | Write _ _ _ => False
                                   | _ => True
                                   end) evs
               /\ (length (List.filter (fun e => match e with
                                                 | Calloc _ _ _ => true
                                                 | _ => false
                                                 end) evs) <= 1)%nat
               /\ (length (List.filter (fun e => match e with
                                                 | Read _ _ _ => true
                                                 | _ => false
                                                 end) evs) <= 2)%nat)
    as Hshort.
  { intros r line q Hworld. exists [Read fd sizeof_hdr r; Log LOG_ERR line].
    cbn zeta. rewrite Hworld. cbn [trace tx wr_plan heap emit set_rx].
    split; [by rewrite <- app_assoc |]. split; [done |]. split; [done |].
    split; [done |]. split; [repeat constructor |]. split; simpl; lia. }
  destruct (rx w) as [| [[| h0 [| h1 rest]] |] q] eqn:Hrx;
    [apply (Hshort 0 "TLS connection is closed" [])
    |apply (Hshort 0 "TLS connection is closed" q)
    |apply (Hshort 1 "read invalid number of TLS message header bytes" q)
    |
    |apply (Hshort (-1) "read invalid number of TLS message header bytes" q)];
    try (unfold demo_tls_recv_msg, run; rewrite bind_eq; unfold read;
         rewrite Hrx; try rewrite <- Hrx; by destruct w).
  clear Hshort.
  pose proof (be16_range h0 h1) as Hn.
  set (w1 := emit (Read fd sizeof_hdr 2)
               (set_rx (after_read sizeof_hdr (h0 :: h1 :: rest) q) w)).
  destruct (calloc_spec (R := Z * TLSMessage) (be16 h0 h1) 1 w1)
    as (p & w2 & Hcalloc & Hp & _ & Htrace2).
  destruct (calloc_wire _ _ _ _ _ Hcalloc) as [Htx2 Hwr2].
  destruct (read_spec (R := Z * TLSMessage) fd (be16 h0 h1) w2)
    as (r & w3 & Hread & _ & _ & Hheap3 & _ & Hwr3 & Htx3 & Htrace3).
  rewrite (recv_after_header B fd msg w _ _ _ _ Hrx _ _ Hcalloc _ _ Hread).
  destruct (be16 h0 h1 >? KMYTH_TLS_MAX_MSG_SIZE B) eqn:Hmax.
  { eexists. cbn. split; [rewrite <- app_assoc; reflexivity |].
    repeat split; auto; repeat constructor. }
  rewrite Z.gtb_ltb in Hmax. apply Z.ltb_ge in Hmax.
  destruct (p =? NULL) eqn:Hnull.
  { apply Z.eqb_eq in Hnull.
    destruct Hp as [(_ & Hsame & _) | (Hp & _)]; [| done].
    exists [Read fd sizeof_hdr 2; Calloc (be16 h0 h1) 1 p;
            Log LOG_ERR "failed to allocate received message buffer"].
    cbn [snd trace tx wr_plan heap emit].
    rewrite Htrace2, Htx2, Hwr2, Hsame. cbn [trace emit set_rx w1].
    split; [by rewrite <- !app_assoc |].
    repeat split; auto; repeat constructor; lia. }
  apply Z.eqb_neq in Hnull.
  destruct Hp as [(Hp & _) | (_ & Hfresh & Hins)]; [done |].
  change (heap w1) with (heap w) in Hfresh, Hins.
  assert (forall data line,
             let w' := emit (Log LOG_ERR line) (store p data w3) in
             trace w' = trace w ++ [Read fd sizeof_hdr 2;
                                    Calloc (be16 h0 h1) 1 p;
                                    Read fd (be16 h0 h1) r;
                                    Log LOG_ERR line]
             /\ tx w' = tx w /\ wr_plan w' = wr_plan w
             /\ forall a block,
                 heap w !! a = Some block -> heap w' !! a = Some block)
    as Hworld.
  { intros data line. cbn zeta.
    cbn [trace tx wr_plan heap emit store set_heap].
    rewrite Htrace3, Htrace2, Htx3, Htx2, Hwr3, Hwr2.
    cbn [trace emit set_rx w1].
    split; [by rewrite <- !app_assoc |]. split; [done |]. split; [done |].
    intros a block Ha.
    assert (a <> p) as Hne by (intros ->; congruence).
    rewrite lookup_alter_ne by done.
    rewrite Hheap3, Hins, lookup_insert_ne by done. exact Ha. }
  destruct (r =? 0);
    [| destruct (negb (r =? be16 h0 h1))].
  - destruct (Hworld (delivered (be16 h0 h1) (rx w2))
                "TLS connection is closed") as (Ht & Hx & Hw & Hh).
    eexists. cbn [snd]. split; [exact Ht |].
    repeat split; auto; repeat constructor; lia.
  - destruct (Hworld (delivered (be16 h0 h1) (rx w2))
                "read incorrect number of TLS message bytes")
      as (Ht & Hx & Hw & Hh).
    eexists. cbn [snd]. split; [exact Ht |].
    repeat split; auto; repeat constructor; lia.
  - destruct (Hworld (delivered (be16 h0 h1) (rx w2)) "")
      as (Ht & Hx & Hw & Hh).
    cbn [trace tx wr_plan heap emit] in Ht, Hx, Hw, Hh.
    exists [Read fd sizeof_hdr 2; Calloc (be16 h0 h1) 1 p;
            Read fd (be16 h0 h1) r].
    cbn [snd]. split.
    + apply (app_inv_tail [Log LOG_ERR ""]).
      rewrite Ht, <- app_assoc. reflexivity.
    + repeat split; auto; repeat constructor; lia.
Qed.

(** One frame at the head of a segment, received: the message, and the
    world it leaves. *)
Lemma recv_frame (B : build) (fd : Z) (msg : TLSMessage) (w : world)
    (n : Z) (payload extra : list byte) (more : list segment) :
  0 < n <= KMYTH_TLS_MAX_MSG_SIZE B ->
  n < 65536 ->
  Z.of_nat (length payload) = n ->
  rx w = Seg (be16_bytes n ++ payload ++ extra) :: more ->
  head (alloc_plan w) <> Some false ->
  let p := fresh ({[NULL]} ∪ dom (heap w)) in
  exists w',
    demo_tls_recv_msg B fd msg w
    = ((EXIT_SUCCESS, mkMessage (mkHeader n) p), w')
    /\ p <> NULL
    /\ heap w !! p = None
    /\ heap w' = <[p := payload]> (heap w)
    /\ rx w' = match extra with [] => more | _ => Seg extra :: more end
    /\ alloc_plan w' = tail (alloc_plan w).
Proof.
  intros Hsize Hu16 Hlen Hrx Hplan p.
  set (h0 := byte_of_Z (n / 256)). set (h1 := byte_of_Z (n mod 256)).
  assert (be16 h0 h1 = n) as Hn by (apply be16_of_bytes; lia).
  change (be16_bytes n ++ payload ++ extra)
    with (h0 :: h1 :: payload ++ extra) in Hrx.
  destruct (recv_with_memory B fd msg w h0 h1 (payload ++ extra) more Hrx)
    as (Hp & Hfresh & Hrecv); [lia | exact Hplan |].
  fold p in Hp, Hfresh, Hrecv. rewrite Hn in Hrecv.
  assert (after_read sizeof_hdr (h0 :: h1 :: payload ++ extra) more
          = Seg (payload ++ extra) :: more) as Hafter.
  { unfold after_read. change (drop _ _) with (payload ++ extra).
    destruct payload; [simpl in Hlen; lia | reflexivity]. }
  rewrite Hafter in Hrecv.
  eexists. split.
  - erewrite Hrecv by (by apply read_segment).
    replace (take (Z.to_nat n) (payload ++ extra)) with payload
      by (replace (Z.to_nat n) with (length payload) by lia;
          by rewrite take_app_length).
    rewrite Hlen.
    replace (n =? 0) with false by (symmetry; apply Z.eqb_neq; lia).
    rewrite Z.eqb_refl. reflexivity.
  - split; [exact Hp |]. split; [exact Hfresh |].
    cbn [heap rx alloc_plan store emit set_heap set_rx set_alloc_plan].
    split; [| split; [| reflexivity]].
    + apply map_eq. intros a.
      destruct (decide (a = p)) as [-> | Hne].
      * rewrite lookup_alter_eq, !lookup_insert_eq. simpl.
        rewrite drop_replicate.
        replace (Z.to_nat n - length payload)%nat with 0%nat by lia.
        by rewrite app_nil_r.
      * by rewrite lookup_alter_ne, !lookup_insert_ne.
    + unfold after_read.
      replace (Z.to_nat n) with (length payload) by lia.
      rewrite drop_app_length. by destruct extra.
Qed.

(** X18: two frames sent back to back are received one after the other.
    When the socket holds, in one segment, a frame with body [first], a
    frame with body [second] and possibly more, and memory is there, two
    calls of [demo_tls_recv_msg] in a row both return [EXIT_SUCCESS]; the
    first message holds [first], the second holds [second] in a block of
    its own, and what came after the two frames is still in the socket. *)
Theorem recv_two_frames_in_order (B : build) (fd : Z)
    (msg msg0 : TLSMessage) (w : world) (first second extra : list byte)
    (more : list segment) :
  let n1 := Z.of_nat (length first) in
  let n2 := Z.of_nat (length second) in
  0 < n1 <= KMYTH_TLS_MAX_MSG_SIZE B -> n1 < 65536 ->
  0 < n2 <= KMYTH_TLS_MAX_MSG_SIZE B -> n2 < 65536 ->
  rx w = Seg (be16_bytes n1 ++ first ++ be16_bytes n2 ++ second ++ extra)
           :: more ->
  Forall (eq true) (alloc_plan w) ->
  exists m1 w1 m2 w2,
    demo_tls_recv_msg B fd msg w = ((EXIT_SUCCESS, m1), w1)
    /\ demo_tls_recv_msg B fd msg0 w1 = ((EXIT_SUCCESS, m2), w2)
    /\ msg_size (hdr m1) = n1 /\ msg_size (hdr m2) = n2
    /\ body m1 <> body m2
    /\ heap w2 !! body m1 = Some first
    /\ heap w2 !! body m2 = Some second
    /\ rx w2 = match extra with [] => more | _ => Seg extra :: more end.
Proof.
  intros n1 n2 Hs1 Hu1 Hs2 Hu2 Hrx Hplan.
  assert (head (alloc_plan w) <> Some false
          /\ head (tail (alloc_plan w)) <> Some false) as [Hplan1 Hplan2].
  { destruct Hplan as [| b plan <- Hrest]; [done |].
    split; [done |]. by destruct Hrest as [| b' plan' <- _]. }
  destruct (recv_frame B fd msg w n1 first
              (be16_bytes n2 ++ second ++ extra) more Hs1 Hu1 eq_refl Hrx
              Hplan1)
    as (w1 & Hrecv1 & Hp1 & Hfresh1 & Hheap1 & Hrx1 & Hal1).
  cbn [app be16_bytes] in Hrx1.
  destruct (recv_frame B fd msg0 w1 n2 second extra more Hs2 Hu2 eq_refl)
    as (w2 & Hrecv2 & Hp2 & Hfresh2 & Hheap2 & Hrx2 & Hal2).
  { exact Hrx1. }
  { by rewrite Hal1. }
  do 4 eexists. split; [exact Hrecv1 |]. split; [exact Hrecv2 |].
  cbn [msg_size hdr body].
  assert (fresh ({[NULL]} ∪ dom (heap w))
          <> fresh ({[NULL]} ∪ dom (heap w1))) as Hne.
  { intros Heq. rewrite <- Heq, Hheap1, lookup_insert_eq in Hfresh2.
    discriminate. }
  split; [reflexivity |]. split; [reflexivity |]. split; [exact Hne |].
  rewrite Hheap2, Hheap1.
  split; [by rewrite lookup_insert_ne, lookup_insert_eq by congruence |].
  split; [by rewrite lookup_insert_eq | exact Hrx2].
Qed.

Lemma recv_two_frames_in_order_witness :
  let w := set_rx [Seg [x00; x01; x61; x00; x02; x62; x63; x2a]] idle in
  exists m1 w1 m2 w2,
    demo_tls_recv_msg sample_build 4 (mkMessage (mkHeader 0) 0) w
    = ((EXIT_SUCCESS, m1), w1)
    /\ demo_tls_recv_msg sample_build 4 (mkMessage (mkHeader 0) 0) w1
       = ((EXIT_SUCCESS, m2), w2)
    /\ heap w2 !! body m1 = Some [x61]
    /\ heap w2 !! body m2 = Some [x62; x63]
    /\ rx w2 = [Seg [x2a]].
Proof.
  intros w.
  destruct (recv_two_frames_in_order sample_build 4
              (mkMessage (mkHeader 0) 0) (mkMessage (mkHeader 0) 0) w
              [x61] [x62; x63] [x2a] [])
    as (m1 & w1 & m2 & w2 & H1 & H2 & _ & _ & _ & Hb1 & Hb2 & Hrx).
  - simpl. lia.
  - simpl. lia.
  - simpl. lia.
  - simpl. lia.
  - reflexivity.
  - constructor.
  - by exists m1, w1, m2, w2.
Defined.



Lemma recv_footprint_witness :
  let w := set_heap {[ 7 := [x61] ]} (set_rx [Seg [x00; x01; x2a]] idle) in
  heap (snd (demo_tls_recv_msg sample_build 4 (mkMessage (mkHeader 0) 0) w))
    !! 7
  = Some [x61].
Proof.
  intros w.
  destruct (recv_footprint sample_build 4 (mkMessage (mkHeader 0) 0) w)
    as (evs & _ & _ & _ & Hkeep & _).
  apply Hkeep. reflexivity.
Defined.

End FrameFacts.
